(** * vim-wrapped: wrapped-line cursor motion with visual-column memory

    A shallow embedding of [src/extension.ts] (the [WrappedLineMover] class
    and the Thai-aware column helpers) and the properties of the column
    codec, the programmatic-move guard, the boundary probe, the move
    controller and the passive listener.  The source file holds two revisions
    of the extension; the embedding follows the later one, whose column
    helpers take the tab size, and has the column helpers of the earlier one
    in the module [Earlier].

    The extension is asynchronous, and every promise it creates is awaited
    by its caller.  The embedding runs a command or a listener to completion
    before the next one starts: a method is a function from the state it is
    entered in to its completion and the state it leaves.  The change event
    a mutation of the extension raises reaches the listener while that
    mutation is in flight; what the listener would then read of the guard is
    recorded with the mutation (see [Issued]). *)

From Equations Require Import Equations.
From Stdlib Require Import ZArith List Bool Lia.
Import ListNotations.

Local Open Scope Z_scope.

(** ** Strings and character codes

    A JavaScript string is a sequence of UTF-16 code units.  Offsets,
    columns and counters are JavaScript numbers that only ever hold
    integers here; they are modelled in [Z]. *)

Definition JsString := list Z.

(** [line.length] *)
Definition strlen (line : JsString) : Z := Z.of_nat (length line).

(** [line.charCodeAt(i)]: the code unit at offset [i], or [NaN] (here
    [None]) when [i] is outside the string. *)
Definition charCodeAt (line : JsString) (i : Z) : option Z :=
  if i <? 0 then None else nth_error line (Z.to_nat i).

(** ** Thai character handling *)

Definition THAI_NON_BASE_CODES : list Z :=
  [ 3656; 3657; 3658; 3659            (* tone marks *)
  ; 3636; 3637; 3639; 3633; 3661; 3660; 3655; 3638   (* ascenders *)
  ; 3640; 3641                        (* descenders *)
  ; 3635                              (* special vowel *) ].

(** [THAI_NON_BASE_CODES.includes(c)].  [NaN] is not in the table, so an
    out-of-range read is never a combining mark. *)
Definition includes (codes : list Z) (c : option Z) : bool :=
  match c with
  | Some z => existsb (Z.eqb z) codes
  | None => false
  end.

(** The test both codec loops make at an offset. *)
Definition isNonBase (line : JsString) (i : Z) : bool :=
  includes THAI_NON_BASE_CODES (charCodeAt line i).

(** ** Tab size

    [editor.options.tabSize] has type [number | string | undefined]; a
    tab size that is a number is a whole number. *)

Inductive TabSize : Type :=
| TabNumber (n : Z)
| TabString (s : JsString)
| TabUndefined.

(** [(typeof(tabSize) === "number") ? tabSize : 0] *)
Definition actualTabSize (tabSize : TabSize) : Z :=
  match tabSize with
  | TabNumber n => n
  | _ => 0
  end.

Definition SPACE : Z := 32.
Definition TAB : Z := 9.

(** [countInitialSpaces(str, tabsize)].  The [for ... of] loop walks code
    points; it leaves at the first one that is neither a space nor a tab, and
    a space or a tab is a single code unit, so walking code units visits
    the same prefix. *)
Fixpoint countInitialSpaces_from (str : JsString) (tabsize count : Z) : Z :=
  match str with
  | [] => count
  | char :: rest =>
      if char =? SPACE then countInitialSpaces_from rest tabsize (count + 1)
      else if char =? TAB then countInitialSpaces_from rest tabsize (count + tabsize)
      else count
  end.

Definition countInitialSpaces (str : JsString) (tabsize : Z) : Z :=
  countInitialSpaces_from str tabsize 0.

(** [let indentationFix = 0;
     if (wrapStart !== 0) { indentationFix = countInitialSpaces(line, actualTabSize); }] *)
Definition indentationFix (line : JsString) (wrapStart : Z) (tabSize : TabSize) : Z :=
  if wrapStart =? 0 then 0 else countInitialSpaces line (actualTabSize tabSize).

(** ** Column codec *)

(** The [for (let i = wrapStart; i <= character; i++)] loop of
    [getColumnFromCharacter], entered at [i] with the running [count]. *)
Equations? columnLoop (line : JsString) (character i count : Z) : Z
  by wf (Z.to_nat (character + 1 - i)) lt :=
  columnLoop line character i count with Z_le_gt_dec i character => {
    | left _ =>
        columnLoop line character (i + 1)
          (if negb (isNonBase line i) then count + 1 else count)
    | right _ => count }.
Proof. lia. Qed.

Definition getColumnFromCharacter
  (line : JsString) (wrapStart character : Z) (tabSize : TabSize) : Z :=
  let count := columnLoop line character wrapStart 0 in
  count + indentationFix line wrapStart tabSize.

(** The [while (count < column)] loop of [getCharacterFromColumn], entered
    with the current [count], [index] and [lastColumnCharacter]. *)
Equations? characterLoop (line : JsString) (wrapEnd column count index lastColumnCharacter : Z) : Z
  by wf (Z.to_nat (wrapEnd - index)) lt :=
  characterLoop line wrapEnd column count index lastColumnCharacter
    with Z_lt_ge_dec count column => {
    | right _ => lastColumnCharacter
    | left _ with Z_le_gt_dec wrapEnd index => {
      | left _ => lastColumnCharacter
      | right _ =>
          if negb (isNonBase line index)
          then characterLoop line wrapEnd column (count + 1) (index + 1) index
          else characterLoop line wrapEnd column count (index + 1) lastColumnCharacter } }.
Proof. all: lia. Qed.

Definition getCharacterFromColumn
  (line : JsString) (wrapStart wrapEnd column : Z) (tabSize : TabSize) : Z :=
  let count := indentationFix line wrapStart tabSize in
  characterLoop line wrapEnd column count wrapStart wrapStart.

(** The [while (index > 0)] loop of [getLeftColumnCharacter]. *)
Equations? leftLoop (line : JsString) (index : Z) : Z
  by wf (Z.to_nat index) lt :=
  leftLoop line index with Z_gt_le_dec index 0 => {
    | left _ =>
        if negb (isNonBase line index) then index
        else leftLoop line (index - 1)
    | right _ => index }.
Proof. lia. Qed.

Definition getLeftColumnCharacter (line : JsString) (character : Z) : Z :=
  leftLoop line (character - 1).

(** ** The earlier revision of the column helpers

    The source file opens with an earlier revision of the extension.  Its
    column helpers take no tab size and add no indentation, its walk tests
    the span end before the column, and its table of combining marks lacks
    SARA UE. *)

Module Earlier.

Definition THAI_NON_BASE_CODES : list Z :=
  [ 3656; 3657; 3658; 3659            (* tone marks *)
  ; 3636; 3637; 3639; 3633; 3661; 3660; 3655   (* ascenders *)
  ; 3640; 3641                        (* descenders *)
  ; 3635                              (* special vowel *) ].

Definition isNonBase (line : JsString) (i : Z) : bool :=
  includes THAI_NON_BASE_CODES (charCodeAt line i).

(** The [for (let i = wrapStart; i <= character; i++)] loop. *)
Equations? columnLoop (line : JsString) (character i count : Z) : Z
  by wf (Z.to_nat (character + 1 - i)) lt :=
  columnLoop line character i count with Z_le_gt_dec i character => {
    | left _ =>
        columnLoop line character (i + 1)
          (if negb (isNonBase line i) then count + 1 else count)
    | right _ => count }.
Proof. lia. Qed.

Definition getColumnFromCharacter (line : JsString) (wrapStart character : Z) : Z :=
  columnLoop line character wrapStart 0.

(** The [while (index < wrapEnd && count < column)] loop. *)
Equations? characterLoop (line : JsString) (wrapEnd column count index lastColumnCharacter : Z) : Z
  by wf (Z.to_nat (wrapEnd - index)) lt :=
  characterLoop line wrapEnd column count index lastColumnCharacter
    with Z_lt_ge_dec index wrapEnd => {
    | right _ => lastColumnCharacter
    | left _ with Z_lt_ge_dec count column => {
      | right _ => lastColumnCharacter
      | left _ =>
          if negb (isNonBase line index)
          then characterLoop line wrapEnd column (count + 1) (index + 1) index
          else characterLoop line wrapEnd column count (index + 1) lastColumnCharacter } }.
Proof. all: lia. Qed.

Definition getCharacterFromColumn (line : JsString) (wrapStart wrapEnd column : Z) : Z :=
  characterLoop line wrapEnd column 0 wrapStart wrapStart.

(** The [while (index > 0)] loop. *)
Equations? leftLoop (line : JsString) (index : Z) : Z
  by wf (Z.to_nat index) lt :=
  leftLoop line index with Z_gt_le_dec index 0 => {
    | left _ =>
        if negb (isNonBase line index) then index
        else leftLoop line (index - 1)
    | right _ => index }.
Proof. lia. Qed.

Definition getLeftColumnCharacter (line : JsString) (character : Z) : Z :=
  leftLoop line (character - 1).

End Earlier.


(** ** The host editor

    The part of the VS Code API the extension reads and writes.  The
    types follow the API's own declarations. *)

Module vscode.

Record Position := { line : Z; character : Z }.

Definition Position_isEqual (p q : Position) : bool :=
  (line p =? line q) && (character p =? character q).

(** [new vscode.Position(line, character)] throws on a negative argument. *)
Definition newPosition (line character : Z) : option Position :=
  if (line <? 0) || (character <? 0) then None
  else Some {| line := line; character := character |}.

Definition isBefore (p q : Position) : bool :=
  (line p <? line q) || ((line p =? line q) && (character p <? character q)).

Record Selection := { anchor : Position; active : Position }.

(** A selection is a range: [start] is the smaller of its two ends. *)
Definition start (s : Selection) : Position :=
  if isBefore (anchor s) (active s) then anchor s else active s.
Definition end_ (s : Selection) : Position :=
  if isBefore (anchor s) (active s) then active s else anchor s.

(** [Selection] inherits [isEqual] and [isEmpty] from [Range]: they
    compare [start] and [end]. *)
Definition isEqual (a b : Selection) : bool :=
  Position_isEqual (start a) (start b) && Position_isEqual (end_ a) (end_ b).
Definition isEmpty (s : Selection) : bool :=
  Position_isEqual (start s) (end_ s).

(** [new vscode.Selection(newPos, newPos)] *)
Definition cursorAt (p : Position) : Selection := {| anchor := p; active := p |}.

Inductive TextEditorCursorStyle :=
| Line | Block | Underline | LineThin | BlockOutline | UnderlineThin.

Definition TextEditorCursorStyle_eqb (a b : TextEditorCursorStyle) : bool :=
  match a, b with
  | Line, Line | Block, Block | Underline, Underline
  | LineThin, LineThin | BlockOutline, BlockOutline
  | UnderlineThin, UnderlineThin => true
  | _, _ => false
  end.

Record TextEditorOptions :=
  { cursorStyle : TextEditorCursorStyle; tabSize : TabSize }.

(** [editor.selections] is [selection :: secondary]: the primary
    selection always exists. *)
Record TextEditor :=
  { document : list JsString
  ; selection : Selection
  ; secondary : list Selection
  ; options : TextEditorOptions }.

Definition selections (e : TextEditor) : list Selection :=
  selection e :: secondary e.

(** [editor.selection.active.line] and [editor.selection.active.character] *)
Definition activeLine (e : TextEditor) : Z := line (active (selection e)).
Definition activeCharacter (e : TextEditor) : Z := character (active (selection e)).

Definition lineCount (e : TextEditor) : Z := Z.of_nat (length (document e)).

(** [editor.document.lineAt(n).text]; [lineAt] throws when [n] is not a
    line of the document. *)
Definition lineAt (e : TextEditor) (n : Z) : option JsString :=
  if n <? 0 then None else nth_error (document e) (Z.to_nat n).

(** [editor.selection = sel]: the editor is left with that one selection. *)
Definition set_selection (sel : Selection) (e : TextEditor) : TextEditor :=
  {| document := document e; selection := sel; secondary := [];
     options := options e |}.

(** [editor.options.cursorStyle = style] *)
Definition set_cursorStyle (style : TextEditorCursorStyle) (e : TextEditor) : TextEditor :=
  {| document := document e; selection := selection e; secondary := secondary e;
     options := {| cursorStyle := style; tabSize := tabSize (options e) |} |}.

(** The cursors a [cursorMove] command leaves: without [select] every
    cursor is an empty selection. *)
Definition set_cursors (primary : Position) (others : list Position)
  (e : TextEditor) : TextEditor :=
  {| document := document e; selection := cursorAt primary;
     secondary := map cursorAt others; options := options e |}.

(** The [to] argument of the [cursorMove] command, always [by: "wrappedLine"]. *)
Inductive CursorMoveTo :=
| up | down | left | right | wrappedLineStart | wrappedLineEnd.

Inductive TextEditorSelectionChangeKind := Keyboard | Mouse | Command.

(** The events the extension subscribes to; a selection change carries
    its [kind], which may be [undefined]. *)
Inductive Event :=
| DidChangeTextEditorSelection (kind : option TextEditorSelectionChangeKind)
| DidChangeTextEditorVisibleRanges
| DidChangeActiveTextEditor.

End vscode.

(** The host's wrapping engine is not part of the extension.  A host is
    its [cursorMove] command: from an editor it gives the new primary cursor
    and the other cursors, or rejects the command. *)
Definition Host :=
  vscode.CursorMoveTo -> vscode.TextEditor ->
  option (vscode.Position * list vscode.Position).

(** ** State of the extension *)

Record WrappedLineMover :=
  { desiredColumn : Z; isMoving : bool; programmaticMoveCount : Z }.

(** [new WrappedLineMover()] *)
Definition newMover : WrappedLineMover :=
  {| desiredColumn := 0; isMoving := false; programmaticMoveCount := 0 |}.

Definition isInProgrammaticMove (this : WrappedLineMover) : bool :=
  programmaticMoveCount this >? 0.

(** A cursor or selection mutation the extension issues to the host. *)
Inductive HostCall :=
| ExecuteCursorMove (to : vscode.CursorMoveTo)
| SetSelection (sel : vscode.Selection).

(** An issued mutation, with the value [isInProgrammaticMove()] has when
    it is issued and keeps while it is in flight: what the listener, run
    from the change event the mutation raises, reads at its first line. *)
Record Issued := { call : HostCall; guarded : bool }.

(** The mover, the editor at hand and the mutations issued so far.  [E]
    is [vscode.TextEditor] inside the methods that receive [editor], and
    [option vscode.TextEditor] for [vscode.window.activeTextEditor]. *)
Record State (E : Type) :=
  { this : WrappedLineMover; editor : E; journal : list Issued }.
Arguments this {E} _.
Arguments editor {E} _.
Arguments journal {E} _.

Definition Session := State vscode.TextEditor.
Definition World := State (option vscode.TextEditor).

Definition with_this {E} (f : WrappedLineMover -> WrappedLineMover) (s : State E) : State E :=
  {| this := f (this s); editor := editor s; journal := journal s |}.
Definition with_editor {E F} (f : E -> F) (s : State E) : State F :=
  {| this := this s; editor := f (editor s); journal := journal s |}.

Definition set_desiredColumn (c : Z) (m : WrappedLineMover) : WrappedLineMover :=
  {| desiredColumn := c; isMoving := isMoving m;
     programmaticMoveCount := programmaticMoveCount m |}.
Definition set_isMoving (b : bool) (m : WrappedLineMover) : WrappedLineMover :=
  {| desiredColumn := desiredColumn m; isMoving := b;
     programmaticMoveCount := programmaticMoveCount m |}.
Definition set_programmaticMoveCount (n : Z) (m : WrappedLineMover) : WrappedLineMover :=
  {| desiredColumn := desiredColumn m; isMoving := isMoving m;
     programmaticMoveCount := n |}.

(** Records a mutation in the journal, stamped with the guard's value now. *)
Definition issue {E} (c : HostCall) (s : State E) : State E :=
  {| this := this s; editor := editor s;
     journal := journal s ++ [{| call := c; guarded := isInProgrammaticMove (this s) |}] |}.

(** ** Asynchronous methods

    A method is a state transformer that completes normally with a value
    or throws; [bind] is [await] followed by the rest of the method. *)

Inductive Completion (A : Type) :=
| Normal (a : A)
| Throw.
Arguments Normal {A} a.
Arguments Throw {A}.

Definition Async (A : Type) := Session -> Completion A * Session.

Definition ret {A} (a : A) : Async A := fun s => (Normal a, s).

Definition bind {A B} (m : Async A) (k : A -> Async B) : Async B :=
  fun s =>
    match m s with
    | (Normal a, s') => k a s'
    | (Throw, s') => (Throw, s')
    end.

Notation "x <- m ;; k" := (bind m (fun x => k))
  (at level 61, m at next level, right associativity).
Notation "m ;;; k" := (bind m (fun _ => k))
  (at level 61, right associativity).

Definition gets {A} (f : Session -> A) : Async A := fun s => (Normal (f s), s).
Definition modify (f : Session -> Session) : Async unit := fun s => (Normal tt, f s).

(** [try { body } finally { final }] *)
Definition tryFinally {A} (body : Async A) (final : Session -> Session) : Async A :=
  fun s => let (r, s') := body s in (r, final s').

(** [editor.document.lineAt(lineNum).text] *)
Definition lineText (lineNum : Z) : Async JsString :=
  fun s =>
    match vscode.lineAt (editor s) lineNum with
    | Some text => (Normal text, s)
    | None => (Throw, s)
    end.

(** [new vscode.Position(line, character)] *)
Definition newPosition (line character : Z) : Async vscode.Position :=
  fun s =>
    match vscode.newPosition line character with
    | Some p => (Normal p, s)
    | None => (Throw, s)
    end.

Definition isInInsertMode (e : vscode.TextEditor) : bool :=
  vscode.TextEditorCursorStyle_eqb
    (vscode.cursorStyle (vscode.options e)) vscode.Line.

Definition isSingleSelection (e : vscode.TextEditor) : bool :=
  (length (vscode.selections e) =? 1)%nat && vscode.isEmpty (vscode.selection e).

(** ** The [WrappedLineMover] methods *)

Inductive Direction := Up | Down.

Definition toCursorMove (direction : Direction) : vscode.CursorMoveTo :=
  match direction with
  | Up => vscode.up
  | Down => vscode.down
  end.

(** [this.programmaticMoveCount++] *)
Definition enterProgrammaticMove (s : Session) : Session :=
  with_this (fun m => set_programmaticMoveCount (programmaticMoveCount m + 1) m) s.

(** [this.programmaticMoveCount = Math.max(0, this.programmaticMoveCount - 1)] *)
Definition leaveProgrammaticMove (s : Session) : Session :=
  with_this (fun m => set_programmaticMoveCount (Z.max 0 (programmaticMoveCount m - 1)) m) s.

Definition runProgrammaticMove (action : Async unit) : Async unit :=
  modify enterProgrammaticMove ;;;
  tryFinally action leaveProgrammaticMove.

(** The stop test of [moveCursorLineWrapped]. *)
Definition atDocumentBoundary
  (direction : Direction) (wrapStart wrapEnd : Z) (text : JsString)
  (lineNum totalLines : Z) : bool :=
  match direction with
  | Down => (wrapEnd =? strlen text) && (lineNum >=? totalLines - 1)
  | Up => (wrapStart =? 0) && (lineNum =? 0)
  end.

(** The arrow function [updateSelection] runs under the guard.  The
    promise it awaits after the assignment resolves at the selection-change
    event the assignment raises; the await changes no state. *)
Definition assignSelection (selection : vscode.Selection) : Async unit :=
  fun s =>
    if vscode.isEqual (vscode.selection (editor s)) selection
    then (Normal tt, s)
    else (Normal tt,
          with_editor (vscode.set_selection selection)
            (issue (SetSelection selection) s)).

(** The [if (!this.isMoving)] block of [moveCursorLineWrapped]. *)
Definition anchorDesiredColumn (text : JsString) (wrapStart : Z) : Async unit :=
  isMoving' <- gets (fun s => isMoving (this s)) ;;
  if negb isMoving' then
    modify (with_this (set_isMoving true)) ;;;
    character <- gets (fun s => vscode.activeCharacter (editor s)) ;;
    tabSize <- gets (fun s => vscode.tabSize (vscode.options (editor s))) ;;
    modify (with_this (set_desiredColumn
              (getColumnFromCharacter text wrapStart character tabSize)))
  else ret tt.

Section WithHost.

Variable cursorMove : Host.

(** [vscode.commands.executeCommand("cursorMove", { to, by: "wrappedLine" })] *)
Definition executeCursorMove (to : vscode.CursorMoveTo) : Async unit :=
  fun s =>
    let s := issue (ExecuteCursorMove to) s in
    match cursorMove to (editor s) with
    | Some (primary, others) =>
        (Normal tt, with_editor (vscode.set_cursors primary others) s)
    | None => (Throw, s)
    end.

Definition doDefaultCursorMove (to : vscode.CursorMoveTo) : Async unit :=
  runProgrammaticMove (executeCursorMove to).

Definition updateSelection (selection : vscode.Selection) : Async unit :=
  runProgrammaticMove (assignSelection selection).

Definition getWrappedLineBounds : Async (Z * Z) :=
  modify (with_editor (vscode.set_cursorStyle vscode.LineThin)) ;;;
  originalSelection <- gets (fun s => vscode.selection (editor s)) ;;
  doDefaultCursorMove vscode.wrappedLineStart ;;;
  startChar <- gets (fun s => vscode.activeCharacter (editor s)) ;;
  doDefaultCursorMove vscode.wrappedLineEnd ;;;
  endChar <- gets (fun s => vscode.activeCharacter (editor s)) ;;
  updateSelection originalSelection ;;;
  modify (with_editor (vscode.set_cursorStyle vscode.Block)) ;;;
  ret (startChar, endChar).

Definition adjustCursorToColumn (column : Z) : Async unit :=
  bounds <- getWrappedLineBounds ;;
  let (wrapStart, wrapEnd) := bounds : Z * Z in
  lineNum <- gets (fun s => vscode.activeLine (editor s)) ;;
  text <- lineText lineNum ;;
  tabSize <- gets (fun s => vscode.tabSize (vscode.options (editor s))) ;;
  let charPos := getCharacterFromColumn text wrapStart wrapEnd column tabSize in
  newPos <- newPosition lineNum charPos ;;
  let newSelection := vscode.cursorAt newPos in
  updateSelection newSelection.

Definition snapCursorInsideWrappedLine : Async unit :=
  originalSelection <- gets (fun s => vscode.selection (editor s)) ;;
  doDefaultCursorMove vscode.wrappedLineEnd ;;;
  endSelection <- gets (fun s => vscode.selection (editor s)) ;;
  if vscode.isEqual originalSelection endSelection then
    let lineNum := vscode.line (vscode.active endSelection) in
    text <- lineText lineNum ;;
    newPos <- newPosition lineNum
                (getLeftColumnCharacter text
                   (vscode.character (vscode.active endSelection))) ;;
    updateSelection (vscode.cursorAt newPos)
  else
    updateSelection originalSelection.

(** The body of [moveCursorLineWrapped] once [editor] is known. *)
Definition moveCursorLineWrapped_on (direction : Direction) : Async unit :=
  bounds <- getWrappedLineBounds ;;
  let (wrapStart, wrapEnd) := bounds : Z * Z in
  lineNum <- gets (fun s => vscode.activeLine (editor s)) ;;
  text <- lineText lineNum ;;
  totalLines <- gets (fun s => vscode.lineCount (editor s)) ;;
  if atDocumentBoundary direction wrapStart wrapEnd text lineNum totalLines
  then ret tt
  else
    anchorDesiredColumn text wrapStart ;;;
    doDefaultCursorMove (toCursorMove direction) ;;;
    column <- gets (fun s => desiredColumn (this s)) ;;
    adjustCursorToColumn column.

(** Runs a method on the active editor and puts the editor back. *)
Definition onEditor {A} (w : World) (e : vscode.TextEditor) (m : Async A)
  : Completion A * World :=
  let (r, s) := m (with_editor (fun _ => e) w) in
  (r, with_editor Some s).

Definition moveCursorLineWrapped (direction : Direction) (w : World)
  : Completion unit * World :=
  match editor w with
  | None => (Normal tt, w)
  | Some e =>
      if negb (isSingleSelection e) then (Normal tt, w)
      else onEditor w e (moveCursorLineWrapped_on direction)
  end.

(** The [update] closure of [registerListeners]. *)
Definition update (snapCursor : bool) (w : World) : Completion unit * World :=
  if isInProgrammaticMove (this w) then (Normal tt, w)
  else
    let w := with_this (set_isMoving false) w in
    match editor w with
    | None => (Normal tt, w)
    | Some e =>
        if vscode.activeCharacter e =? 0
        then (Normal tt, w)
        else if negb (isInInsertMode e) && snapCursor then
          onEditor w e
            (text <- lineText (vscode.activeLine e) ;;
             if strlen text <=? vscode.activeCharacter e
             then ret tt
             else snapCursorInsideWrappedLine)
        else (Normal tt, w)
    end.

(** The three subscriptions of [registerListeners], by the event that
    fires.  There is one editor: [e.textEditor] is the active editor. *)
Definition listener (ev : vscode.Event) (w : World) : Completion unit * World :=
  match ev with
  | vscode.DidChangeTextEditorSelection kind =>
      update
        (match kind, editor w with
         | Some vscode.Mouse, Some e => isSingleSelection e
         | _, _ => false
         end) w
  | vscode.DidChangeTextEditorVisibleRanges => update false w
  | vscode.DidChangeActiveTextEditor => update false w
  end.

End WithHost.

(** The last two steps of [moveCursorLineWrapped]: the host's line move,
    then the cursor is put on the desired column. *)
Definition moveAndAdjust (cursorMove : Host) (direction : Direction) : Async unit :=
  doDefaultCursorMove cursorMove (toCursorMove direction) ;;;
  column <- gets (fun s => desiredColumn (this s)) ;;
  adjustCursorToColumn cursorMove column.

(** The method [update] runs on the editor when it goes on to snap. *)
Definition snapUnlessLineEnd (cursorMove : Host) (e : vscode.TextEditor) : Async unit :=
  text <- lineText (vscode.activeLine e) ;;
  if strlen text <=? vscode.activeCharacter e
  then ret tt
  else snapCursorInsideWrappedLine cursorMove.

(** ** Runs of the extension *)

(** A contiguous sequence of [moveCursorLineWrapped] calls: each call
    starts where the previous one stopped, nothing happening in between. *)
Fixpoint calls (cursorMove : Host) (directions : list Direction) (w : World) : World :=
  match directions with
  | [] => w
  | direction :: rest =>
      calls cursorMove rest (snd (moveCursorLineWrapped cursorMove direction w))
  end.

(** [activate]: a new mover, and whatever editor is active. *)
Definition activate (e : option vscode.TextEditor) : World :=
  {| this := newMover; editor := e; journal := [] |}.

(** The worlds the extension can be in between two of its turns: after
    activation, after a command, after a listener ran on an event, and after
    the user or the host changed the editor. *)
Inductive reachable (cursorMove : Host) : World -> Prop :=
| reachable_activate e :
    reachable cursorMove (activate e)
| reachable_command direction w :
    reachable cursorMove w ->
    reachable cursorMove (snd (moveCursorLineWrapped cursorMove direction w))
| reachable_event ev w :
    reachable cursorMove w ->
    reachable cursorMove (snd (listener cursorMove ev w))
| reachable_edit e w :
    reachable cursorMove w ->
    reachable cursorMove (with_editor (fun _ => e) w).

(** ** Vocabulary of the properties *)


(** The offsets [from], [from + 1], ... ([n] of them). *)
Fixpoint offsets (from : Z) (n : nat) : list Z :=
  match n with
  | O => []
  | S k => from :: offsets (from + 1) k
  end.

(** How many offsets of [wrapStart .. character], both included, do not
    hold a combining mark. *)
Definition visibleWidth (line : JsString) (wrapStart character : Z) : Z :=
  Z.of_nat
    (length (filter (fun i => negb (isNonBase line i))
                    (offsets wrapStart (Z.to_nat (character + 1 - wrapStart))))).



(** The mutations the extension issues that move the cursor by one
    wrapped line. *)
Definition isLineMove (i : Issued) : bool :=
  match call i with
  | ExecuteCursorMove vscode.up | ExecuteCursorMove vscode.down => true
  | _ => false
  end.

(** The primary cursor is on a line of the document, at an offset that
    is not negative. *)
Definition cursorInDocument (e : vscode.TextEditor) : Prop :=
  0 <= vscode.activeCharacter e
  /\ exists text, vscode.lineAt e (vscode.activeLine e) = Some text.

(** A host that accepts every [cursorMove] command on such an editor and
    leaves the primary cursor on a line of the document. *)
Definition accepting (cursorMove : Host) : Prop :=
  forall to e,
    cursorInDocument e ->
    exists p o,
      cursorMove to e = Some (p, o)
      /\ cursorInDocument (vscode.set_cursors p o e).

(** ** What a method leaves as it found it *)

Definition Frame := Session -> Session -> Prop.

(** [m] relates every state it is run from to the state it stops in,
    whether it completes normally or throws. *)
Definition respects {A} (R : Frame) (m : Async A) : Prop :=
  forall s, R s (snd (m s)).

Definition allGuarded (l : list Issued) : Prop :=
  Forall (fun i => guarded i = true) l.

(** Entered with the counter at [lo] or more, the method leaves the
    counter at its entry value, and every mutation it issued was stamped
    as in a programmatic move. *)
Definition guardedFrom (lo : Z) : Frame :=
  fun s s' =>
    lo <= programmaticMoveCount (this s) ->
    programmaticMoveCount (this s') = programmaticMoveCount (this s)
    /\ exists l, journal s' = journal s ++ l /\ allGuarded l.

(** The column memory, the document and the tab size are as before, and
    every mutation issued satisfies [P]. *)
Definition quiet (P : Issued -> Prop) : Frame :=
  fun s s' =>
    desiredColumn (this s') = desiredColumn (this s)
    /\ isMoving (this s') = isMoving (this s)
    /\ vscode.document (editor s') = vscode.document (editor s)
    /\ vscode.tabSize (vscode.options (editor s')) = vscode.tabSize (vscode.options (editor s))
    /\ exists l, journal s' = journal s ++ l /\ Forall P l.

(** Within a move sequence the column memory is as before. *)
Definition keepsSequence : Frame :=
  fun s s' =>
    isMoving (this s) = true ->
    desiredColumn (this s') = desiredColumn (this s) /\ isMoving (this s') = true.

Definition anyCall : Issued -> Prop := fun _ => True.
Definition notLineMove : Issued -> Prop := fun i => isLineMove i = false.

(** The mutations issued only extend the journal. *)
Definition journalExtends : Frame :=
  fun s s' => exists l, journal s' = journal s ++ l.

(** Entered with a counter that is not negative, the method leaves the
    counter at its entry value, however it completes. *)
Definition restoresCounter {A} (m : Async A) : Prop :=
  forall s,
    0 <= programmaticMoveCount (this s) ->
    programmaticMoveCount (this (snd (m s))) = programmaticMoveCount (this s).

(** Between two turns the counter is 0 and every mutation issued so far
    was issued under the guard. *)
Definition atRest (w : World) : Prop :=
  programmaticMoveCount (this w) = 0 /\ allGuarded (journal w).

(** A frame that composes along a method's steps. *)
Class Framing (R : Frame) : Prop :=
  { framing_refl : forall s, R s s;
    framing_trans : forall a b c, R a b -> R b c -> R a c }.

(** ** A host to run examples on

    Lines wrap every [width] code units and there is one cursor.  A
    cursor on a wrap point is drawn either at the start of the segment to
    its right or, with [leftAffinity] (where a click past the last
    character of a wrapped row leaves it), at the end of the segment to its
    left. *)

Definition toySegmentStart (leftAffinity : bool) (width c : Z) : Z :=
  if leftAffinity
  then (if c <=? 0 then 0 else ((c - 1) / width) * width)
  else (c / width) * width.

Definition toySegmentEnd (leftAffinity : bool) (width len c : Z) : Z :=
  Z.min len (toySegmentStart leftAffinity width c + width).

Definition toyHostWith (leftAffinity : bool) (width : Z) : Host :=
  fun to e =>
    let p := vscode.active (vscode.selection e) in
    let c := vscode.character p in
    let at_ (l ch : Z) := Some ({| vscode.line := l; vscode.character := ch |}, []) in
    let segmentStart := toySegmentStart leftAffinity width in
    let segmentEnd := toySegmentEnd leftAffinity width in
    match vscode.lineAt e (vscode.line p) with
    | None => None
    | Some text =>
        let len := strlen text in
        match to with
        | vscode.wrappedLineStart => at_ (vscode.line p) (segmentStart c)
        | vscode.wrappedLineEnd => at_ (vscode.line p) (segmentEnd len c)
        | vscode.left => at_ (vscode.line p) (Z.max 0 (c - 1))
        | vscode.right => at_ (vscode.line p) (Z.min len (c + 1))
        | vscode.down =>
            if segmentEnd len c <? len
            then at_ (vscode.line p) (Z.min len (c + width))
            else
              match vscode.lineAt e (vscode.line p + 1) with
              | Some next =>
                  at_ (vscode.line p + 1) (Z.min (strlen next) (c - segmentStart c))
              | None => at_ (vscode.line p) c
              end
        | vscode.up =>
            if 0 <? segmentStart c
            then at_ (vscode.line p) (c - width)
            else
              match vscode.lineAt e (vscode.line p - 1) with
              | Some prev =>
                  at_ (vscode.line p - 1)
                      (Z.min (strlen prev) (segmentStart (strlen prev) + c))
              | None => at_ (vscode.line p) c
              end
        end
    end.

Definition toyHost : Z -> Host := toyHostWith false.

(** A host that rejects every command. *)
Definition rejectingHost : Host := fun _ _ => None.

(** A host that cannot move to the end of a wrapped line. *)
Definition haltingHost (width : Z) : Host :=
  fun to e =>
    match to with
    | vscode.wrappedLineEnd => None
    | _ => toyHost width to e
    end.

(** A host that answers the probe and rejects the move by a line. *)
Definition probeOnlyHost (width : Z) : Host :=
  fun to e =>
    match to with
    | vscode.up | vscode.down => None
    | _ => toyHost width to e
    end.

Definition thai_ko_kai : Z := 3585.   (* a base consonant *)
Definition thai_mai_ek : Z := 3656.   (* a tone mark *)

(** An editor on [lines] with one cursor at ([l], [c]). *)
Definition editorAt (lines : list JsString) (l c : Z)
  (style : vscode.TextEditorCursorStyle) : vscode.TextEditor :=
  {| vscode.document := lines;
     vscode.selection := vscode.cursorAt {| vscode.line := l; vscode.character := c |};
     vscode.secondary := [];
     vscode.options := {| vscode.cursorStyle := style; vscode.tabSize := TabNumber 4 |} |}.

(** A session of a new mover on editor [e]. *)
Definition sessionOn (e : vscode.TextEditor) : Session :=
  {| this := newMover; editor := e; journal := [] |}.

(** A newly activated extension on [lines], one block cursor at ([l], [c]). *)
Definition worldAt (lines : list JsString) (l c : Z) : World :=
  activate (Some (editorAt lines l c vscode.Block)).

(** ASCII text as code units: [n] letters starting at ['a']. *)
Definition letters (n : nat) : JsString := offsets 97 n.

(** Ten letters wrapped at 4 as [abcd|efgh|ij], then a short last line. *)
Definition exampleDocument : list JsString := [letters 10; letters 3].



(** ** Unfolding equations of the loops *)

Lemma columnLoop_done line character i count :
  character < i -> columnLoop line character i count = count.
Proof.
  intros H. rewrite columnLoop_equation_1.
  destruct (Z_le_gt_dec i character); [lia | reflexivity].
Qed.

Lemma columnLoop_step line character i count :
  i <= character ->
  columnLoop line character i count =
  columnLoop line character (i + 1)
    (if negb (isNonBase line i) then count + 1 else count).
Proof.
  intros H. rewrite columnLoop_equation_1.
  destruct (Z_le_gt_dec i character); [reflexivity | lia].
Qed.

Lemma characterLoop_reached line wrapEnd column count index last :
  column <= count ->
  characterLoop line wrapEnd column count index last = last.
Proof.
  intros H. rewrite characterLoop_equation_1.
  destruct (Z_lt_ge_dec count column); [lia | reflexivity].
Qed.

Lemma characterLoop_exhausted line wrapEnd column count index last :
  wrapEnd <= index ->
  characterLoop line wrapEnd column count index last = last.
Proof.
  intros H. rewrite characterLoop_equation_1.
  destruct (Z_lt_ge_dec count column); [| reflexivity]. simpl.
  destruct (Z_le_gt_dec wrapEnd index); [reflexivity | lia].
Qed.

Lemma characterLoop_step line wrapEnd column count index last :
  count < column -> index < wrapEnd ->
  characterLoop line wrapEnd column count index last =
  if negb (isNonBase line index)
  then characterLoop line wrapEnd column (count + 1) (index + 1) index
  else characterLoop line wrapEnd column count (index + 1) last.
Proof.
  intros Hc Hi. rewrite characterLoop_equation_1.
  destruct (Z_lt_ge_dec count column); [| lia]. simpl.
  destruct (Z_le_gt_dec wrapEnd index); [lia | reflexivity].
Qed.

Lemma leftLoop_stop line index :
  index <= 0 -> leftLoop line index = index.
Proof.
  intros H. rewrite leftLoop_equation_1.
  destruct (Z_gt_le_dec index 0); [lia | reflexivity].
Qed.

Lemma leftLoop_step line index :
  0 < index ->
  leftLoop line index =
  if negb (isNonBase line index) then index else leftLoop line (index - 1).
Proof.
  intros H. rewrite leftLoop_equation_1.
  destruct (Z_gt_le_dec index 0); [reflexivity | lia].
Qed.


(** ** Reading the marks table *)



(** ** The counting loop *)

Lemma columnLoop_counts line character :
  forall n i count,
    Z.to_nat (character + 1 - i) = n ->
    columnLoop line character i count =
    count + Z.of_nat (length (filter (fun j => negb (isNonBase line j)) (offsets i n))).
Proof.
  induction n as [| n IH]; intros i count Hn.
  - rewrite columnLoop_done by lia. simpl. lia.
  - rewrite columnLoop_step by lia.
    rewrite (IH (i + 1)) by lia. simpl offsets. simpl filter.
    destruct (negb (isNonBase line i)); simpl length; lia.
Qed.

Lemma getColumnFromCharacter_visibleWidth line wrapStart character tabSize :
  getColumnFromCharacter line wrapStart character tabSize =
  visibleWidth line wrapStart character + indentationFix line wrapStart tabSize.
Proof.
  unfold getColumnFromCharacter, visibleWidth.
  rewrite (columnLoop_counts line character _ wrapStart 0 eq_refl). lia.
Qed.



(** ** The walking loop *)

(** The walk answers the offset it was entered with, or a later offset of
    the span that holds no combining mark. *)
Lemma characterLoop_cases line wrapEnd column :
  forall n count index last,
    Z.to_nat (wrapEnd - index) = n ->
    let r := characterLoop line wrapEnd column count index last in
    r = last \/ (index <= r < wrapEnd /\ isNonBase line r = false).
Proof.
  induction n as [| n IH]; intros count index last Hn r; subst r.
  - left. apply characterLoop_exhausted. lia.
  - destruct (Z_lt_ge_dec count column) as [Hc | Hc].
    2:{ left. apply characterLoop_reached. lia. }
    rewrite characterLoop_step by lia.
    destruct (isNonBase line index) eqn:Hmark; simpl.
    + destruct (IH count (index + 1) last ltac:(lia)) as [-> | [Hr Hb]];
        [now left | right; split; [lia | exact Hb]].
    + destruct (IH (count + 1) (index + 1) index ltac:(lia)) as [-> | [Hr Hb]];
        right; (split; [lia | assumption]).
Qed.




(** ** The leftward loop *)

Lemma leftLoop_spec line :
  forall n index,
    Z.to_nat index = n -> 0 <= index ->
    let r := leftLoop line index in
    0 <= r <= index
    /\ (forall j, r < j <= index -> isNonBase line j = true)
    /\ (0 < r -> isNonBase line r = false).
Proof.
  induction n as [| n IH]; intros index Hn Hpos r; subst r.
  - rewrite leftLoop_stop by lia. repeat split; lia.
  - rewrite leftLoop_step by lia.
    destruct (isNonBase line index) eqn:Hmark; simpl.
    + destruct (IH (index - 1) ltac:(lia) ltac:(lia)) as (Hr & Hmarks & Hland).
      repeat split; try lia; [| exact Hland].
      intros j Hj. destruct (Z.eq_dec j index) as [-> | Hne]; [exact Hmark |].
      apply Hmarks. lia.
    + repeat split; try lia. intros _. exact Hmark.
Qed.

(** ** Indentation *)





(** The offset [getLeftColumnCharacter] answers for [character >= 1]:
    left of [character], with only marks strictly between, and free of marks
    when some offset below [character] is. *)
Lemma getLeftColumnCharacter_spec line character :
  1 <= character ->
  0 <= getLeftColumnCharacter line character < character
  /\ (forall j, getLeftColumnCharacter line character < j < character ->
                isNonBase line j = true)
  /\ ((exists j, 0 <= j < character /\ isNonBase line j = false) ->
      isNonBase line (getLeftColumnCharacter line character) = false).
Proof.
  intros Hc. unfold getLeftColumnCharacter.
  destruct (leftLoop_spec line _ (character - 1) eq_refl ltac:(lia))
    as (Hr & Hmarks & Hland).
  repeat split; try lia.
  - intros j Hj. apply Hmarks. lia.
  - intros (j & Hj & Hbase).
    destruct (Z.eq_dec (leftLoop line (character - 1)) 0) as [Hzero | Hnz];
      [| apply Hland; lia].
    destruct (Z.eq_dec j 0) as [-> | Hjnz]; [now rewrite Hzero |].
    rewrite Hmarks in Hbase by lia. discriminate.
Qed.

(** ** Properties of the column codec *)



(** The offset [getCharacterFromColumn] answers is in the span, or is
    the span start when the span is empty. *)
Lemma getCharacterFromColumn_range line wrapStart wrapEnd column tabSize :
  wrapStart <= wrapEnd ->
  wrapStart <= getCharacterFromColumn line wrapStart wrapEnd column tabSize
            <= Z.max (wrapEnd - 1) wrapStart.
Proof.
  intros Hspan. unfold getCharacterFromColumn.
  destruct (characterLoop_cases line wrapEnd column _
              (indentationFix line wrapStart tabSize) wrapStart wrapStart eq_refl)
    as [-> | [Hr _]]; lia.
Qed.









(** ** Frames of the methods *)

#[local] Instance guardedFrom_framing lo : Framing (guardedFrom lo).
Proof.
  split; unfold guardedFrom.
  - intros s _. split; [reflexivity |]. exists []. split; [now rewrite app_nil_r | constructor].
  - intros a b c Hab Hbc Hlo.
    destruct (Hab Hlo) as (Hcount & l1 & Hj1 & Hg1).
    destruct (Hbc ltac:(lia)) as (Hcount' & l2 & Hj2 & Hg2).
    split; [lia |]. exists (l1 ++ l2). split.
    + now rewrite Hj2, Hj1, app_assoc.
    + apply Forall_app. now split.
Qed.

#[local] Instance quiet_framing P : Framing (quiet P).
Proof.
  split; unfold quiet.
  - intros s. repeat split. exists []. split; [now rewrite app_nil_r | constructor].
  - intros a b c (H1 & H2 & H3 & H4 & l1 & Hj1 & Hp1) (H1' & H2' & H3' & H4' & l2 & Hj2 & Hp2).
    repeat split; try congruence.
    exists (l1 ++ l2). split.
    + now rewrite Hj2, Hj1, app_assoc.
    + apply Forall_app. now split.
Qed.

#[local] Instance keepsSequence_framing : Framing keepsSequence.
Proof.
  split; unfold keepsSequence.
  - intros s H. now split.
  - intros a b c Hab Hbc Ha.
    destruct (Hab Ha) as [Hd Hm]. destruct (Hbc Hm) as [Hd' Hm'].
    split; congruence.
Qed.

Lemma quiet_weaken (P Q : Issued -> Prop) s s' :
  (forall i, P i -> Q i) -> quiet P s s' -> quiet Q s s'.
Proof.
  intros HPQ (H1 & H2 & H3 & H4 & l & Hj & Hp).
  repeat split; try assumption.
  exists l. split; [exact Hj |]. eapply Forall_impl; eauto.
Qed.


Lemma guardedFrom_mono lo lo' s s' :
  lo <= lo' -> guardedFrom lo s s' -> guardedFrom lo' s s'.
Proof.
  unfold guardedFrom. intros Hle H Hlo. apply H. lia.
Qed.

Section Composition.

Context {R : Frame} {HR : Framing R}.

Lemma respects_ret {A} (a : A) : respects R (ret a).
Proof. intros s. apply framing_refl. Qed.

Lemma respects_gets {A} (f : Session -> A) : respects R (gets f).
Proof. intros s. apply framing_refl. Qed.

Lemma respects_lineText lineNum : respects R (lineText lineNum).
Proof.
  intros s. unfold lineText.
  destruct (vscode.lineAt (editor s) lineNum); apply framing_refl.
Qed.

Lemma respects_newPosition line character : respects R (newPosition line character).
Proof.
  intros s. unfold newPosition.
  destruct (vscode.newPosition line character); apply framing_refl.
Qed.

Lemma respects_modify f : (forall s, R s (f s)) -> respects R (modify f).
Proof. intros Hf s. apply Hf. Qed.

Lemma respects_bind {A B} (m : Async A) (k : A -> Async B) :
  respects R m -> (forall a, respects R (k a)) -> respects R (bind m k).
Proof.
  intros Hm Hk s. unfold bind.
  specialize (Hm s). destruct (m s) as [[a |] s1]; simpl in *.
  - eapply framing_trans; [exact Hm | apply Hk].
  - exact Hm.
Qed.

Lemma respects_tryFinally {A} (body : Async A) final :
  respects R body -> (forall s, R s (final s)) -> respects R (tryFinally body final).
Proof.
  intros Hbody Hfinal s. unfold tryFinally.
  specialize (Hbody s). destruct (body s) as [r s1]; simpl in *.
  eapply framing_trans; [exact Hbody | apply Hfinal].
Qed.

End Composition.

Create HintDb frames.

#[local] Hint Resolve respects_ret respects_gets respects_lineText : frames.

(** Takes a method apart along its binds and branches. *)
Ltac frame_steps :=
  repeat first
    [ solve [eauto with frames]
    | apply respects_ret | apply respects_gets
    | apply respects_lineText | apply respects_newPosition
    | match goal with
      | |- respects _ (bind _ _) => apply respects_bind; [| intros ]
      | |- respects _ (let (_, _) := ?b in _) => destruct b
      | |- respects _ (if ?c then _ else _) => destruct c
      end ].

Lemma runProgrammaticMove_unfold action s :
  runProgrammaticMove action s =
  let (r, s') := action (enterProgrammaticMove s) in (r, leaveProgrammaticMove s').
Proof. reflexivity. Qed.

Lemma counter_quiet P f s :
  quiet P s (with_this (fun m => set_programmaticMoveCount (f m) m) s).
Proof.
  repeat split. exists []. split; [now rewrite app_nil_r | constructor].
Qed.

Lemma runProgrammaticMove_quiet P action :
  respects (quiet P) action -> respects (quiet P) (runProgrammaticMove action).
Proof.
  intros Haction. unfold runProgrammaticMove.
  apply respects_bind; [| intros _; apply respects_tryFinally; [exact Haction |]].
  - apply respects_modify. intros s. apply counter_quiet.
  - intros s. apply counter_quiet.
Qed.

Lemma runProgrammaticMove_guarded lo action :
  0 <= lo ->
  respects (guardedFrom (lo + 1)) action ->
  respects (guardedFrom lo) (runProgrammaticMove action).
Proof.
  intros Hlo Haction s Hs. rewrite runProgrammaticMove_unfold.
  specialize (Haction (enterProgrammaticMove s)).
  destruct (action (enterProgrammaticMove s)) as [r s1].
  unfold guardedFrom in Haction. simpl in *.
  destruct (Haction ltac:(lia)) as (Hcount & l & Hj & Hg).
  split; [lia |]. exists l. now split.
Qed.

Lemma set_cursorStyle_quiet P style s :
  quiet P s (with_editor (vscode.set_cursorStyle style) s).
Proof.
  repeat split. exists []. split; [now rewrite app_nil_r | constructor].
Qed.

Lemma set_cursorStyle_guarded lo style s :
  guardedFrom lo s (with_editor (vscode.set_cursorStyle style) s).
Proof.
  intros _. split; [reflexivity |].
  exists []. split; [now rewrite app_nil_r | constructor].
Qed.

Section HostFrames.

Variable cursorMove : Host.

Lemma executeCursorMove_quiet (P : Issued -> Prop) to :
  (forall b, P {| call := ExecuteCursorMove to; guarded := b |}) ->
  respects (quiet P) (executeCursorMove cursorMove to).
Proof.
  intros HP s. unfold executeCursorMove.
  destruct (cursorMove to (editor (issue (ExecuteCursorMove to) s))) as [[primary others] |];
    simpl; repeat split; eexists; (split; [reflexivity |]);
    repeat constructor; apply HP.
Qed.

Lemma executeCursorMove_guarded to :
  respects (guardedFrom 1) (executeCursorMove cursorMove to).
Proof.
  intros s Hs. unfold executeCursorMove.
  assert (Hstamp : isInProgrammaticMove (this s) = true)
    by (unfold isInProgrammaticMove; apply Z.gtb_lt; lia).
  destruct (cursorMove to (editor (issue (ExecuteCursorMove to) s))) as [[primary others] |];
    simpl; (split; [reflexivity |]); eexists; (split; [reflexivity |]);
    repeat constructor; exact Hstamp.
Qed.

Lemma assignSelection_quiet (P : Issued -> Prop) selection :
  (forall b, P {| call := SetSelection selection; guarded := b |}) ->
  respects (quiet P) (assignSelection selection).
Proof.
  intros HP s. unfold assignSelection.
  destruct (vscode.isEqual (vscode.selection (editor s)) selection); simpl.
  - apply framing_refl.
  - repeat split. eexists. split; [reflexivity |]. repeat constructor. apply HP.
Qed.

Lemma assignSelection_guarded selection :
  respects (guardedFrom 1) (assignSelection selection).
Proof.
  intros s Hs. unfold assignSelection.
  destruct (vscode.isEqual (vscode.selection (editor s)) selection); simpl.
  - now apply (framing_refl (R := guardedFrom 1)).
  - split; [reflexivity |]. eexists. split; [reflexivity |].
    repeat constructor. simpl. unfold isInProgrammaticMove. apply Z.gtb_lt. lia.
Qed.

Lemma doDefaultCursorMove_quiet (P : Issued -> Prop) to :
  (forall b, P {| call := ExecuteCursorMove to; guarded := b |}) ->
  respects (quiet P) (doDefaultCursorMove cursorMove to).
Proof.
  intros HP. apply runProgrammaticMove_quiet. now apply executeCursorMove_quiet.
Qed.

Lemma doDefaultCursorMove_guarded to :
  respects (guardedFrom 0) (doDefaultCursorMove cursorMove to).
Proof.
  apply runProgrammaticMove_guarded; [lia |]. apply executeCursorMove_guarded.
Qed.

Lemma updateSelection_quiet selection :
  respects (quiet notLineMove) (updateSelection selection).
Proof.
  apply runProgrammaticMove_quiet. apply assignSelection_quiet. reflexivity.
Qed.

Lemma updateSelection_guarded selection :
  respects (guardedFrom 0) (updateSelection selection).
Proof.
  apply runProgrammaticMove_guarded; [lia |]. apply assignSelection_guarded.
Qed.

#[local] Hint Resolve doDefaultCursorMove_guarded updateSelection_quiet
  updateSelection_guarded : frames.
#[local] Hint Extern 1 (respects (quiet notLineMove) (doDefaultCursorMove _ _)) =>
  apply doDefaultCursorMove_quiet; reflexivity : frames.
#[local] Hint Extern 1 (respects _ (modify (with_editor (vscode.set_cursorStyle _)))) =>
  apply respects_modify; intros;
  first [apply set_cursorStyle_quiet | apply set_cursorStyle_guarded] : frames.

Lemma getWrappedLineBounds_quiet :
  respects (quiet notLineMove) (getWrappedLineBounds cursorMove).
Proof. unfold getWrappedLineBounds. frame_steps. Qed.

Lemma getWrappedLineBounds_guarded :
  respects (guardedFrom 0) (getWrappedLineBounds cursorMove).
Proof. unfold getWrappedLineBounds. frame_steps. Qed.

#[local] Hint Resolve getWrappedLineBounds_quiet getWrappedLineBounds_guarded : frames.

Lemma adjustCursorToColumn_quiet column :
  respects (quiet notLineMove) (adjustCursorToColumn cursorMove column).
Proof. unfold adjustCursorToColumn. frame_steps. Qed.

Lemma adjustCursorToColumn_guarded column :
  respects (guardedFrom 0) (adjustCursorToColumn cursorMove column).
Proof. unfold adjustCursorToColumn. frame_steps. Qed.

Lemma snapCursorInsideWrappedLine_quiet :
  respects (quiet notLineMove) (snapCursorInsideWrappedLine cursorMove).
Proof. unfold snapCursorInsideWrappedLine. frame_steps. Qed.

Lemma snapCursorInsideWrappedLine_guarded :
  respects (guardedFrom 0) (snapCursorInsideWrappedLine cursorMove).
Proof. unfold snapCursorInsideWrappedLine. frame_steps. Qed.

End HostFrames.

Lemma respects_weaken {A} (R R' : Frame) (m : Async A) :
  (forall s s', R s s' -> R' s s') -> respects R m -> respects R' m.
Proof. intros Himp Hm s. apply Himp, Hm. Qed.

(** ** Selections *)

Lemma Position_isEqual_eq p q : vscode.Position_isEqual p q = true -> p = q.
Proof.
  destruct p as [pl pc], q as [ql qc]. unfold vscode.Position_isEqual. simpl.
  intros H. apply andb_true_iff in H as [Hl Hc].
  apply Z.eqb_eq in Hl, Hc. now subst.
Qed.

Lemma Position_isEqual_sym p q :
  vscode.Position_isEqual p q = vscode.Position_isEqual q p.
Proof.
  unfold vscode.Position_isEqual. now rewrite (Z.eqb_sym (vscode.line p)), (Z.eqb_sym (vscode.character p)).
Qed.

Lemma isEqual_sym a b : vscode.isEqual a b = vscode.isEqual b a.
Proof.
  unfold vscode.isEqual.
  now rewrite (Position_isEqual_sym (vscode.start a)), (Position_isEqual_sym (vscode.end_ a)).
Qed.

(** Only the cursor at [p] is equal, as a range, to the cursor at [p]. *)
Lemma isEqual_cursorAt p o :
  vscode.isEqual (vscode.cursorAt p) o = true -> o = vscode.cursorAt p.
Proof.
  unfold vscode.isEqual, vscode.start, vscode.end_, vscode.cursorAt. simpl.
  destruct o as [a b]. simpl.
  destruct (vscode.isBefore p p), (vscode.isBefore a b); intros H;
    apply andb_true_iff in H as [H1 H2];
    apply Position_isEqual_eq in H1, H2; now subst.
Qed.

Lemma isEqual_cursorAt_r p o :
  vscode.isEqual o (vscode.cursorAt p) = true -> o = vscode.cursorAt p.
Proof. rewrite isEqual_sym. apply isEqual_cursorAt. Qed.

(** ** The boundary probe *)

Section Probe.

Variable cursorMove : Host.

(** What a probe that returns has done: the two host moves succeeded,
    the answer is where they put the primary cursor, and the selection is
    the entry selection again, under a block cursor. *)
Lemma getWrappedLineBounds_normal s bounds s' :
  getWrappedLineBounds cursorMove s = (Normal bounds, s') ->
  exists p1 o1 p2 o2,
    cursorMove vscode.wrappedLineStart
      (vscode.set_cursorStyle vscode.LineThin (editor s)) = Some (p1, o1)
    /\ cursorMove vscode.wrappedLineEnd
         (vscode.set_cursors p1 o1 (vscode.set_cursorStyle vscode.LineThin (editor s)))
       = Some (p2, o2)
    /\ bounds = (vscode.character p1, vscode.character p2)
    /\ vscode.selection (editor s') = vscode.selection (editor s)
    /\ vscode.cursorStyle (vscode.options (editor s')) = vscode.Block.
Proof.
  unfold getWrappedLineBounds, doDefaultCursorMove, updateSelection,
    runProgrammaticMove, tryFinally, bind, modify, gets, ret,
    executeCursorMove, assignSelection.
  simpl.
  destruct (cursorMove vscode.wrappedLineStart _) as [[p1 o1] |] eqn:Hstart;
    simpl; [| discriminate].
  destruct (cursorMove vscode.wrappedLineEnd _) as [[p2 o2] |] eqn:Hend;
    simpl; [| discriminate].
  destruct (vscode.isEqual (vscode.cursorAt p2) (vscode.selection (editor s))) eqn:E;
    simpl; intros H; inversion H; subst; clear H; simpl;
    exists p1, o1, p2, o2; repeat split; try assumption.
  apply isEqual_cursorAt in E. now symmetry.
Qed.

Lemma getWrappedLineBounds_restores s bounds s' :
  getWrappedLineBounds cursorMove s = (Normal bounds, s') ->
  vscode.selection (editor s') = vscode.selection (editor s)
  /\ vscode.cursorStyle (vscode.options (editor s')) = vscode.Block.
Proof.
  intros H. destruct (getWrappedLineBounds_normal s bounds s' H)
    as (p1 & o1 & p2 & o2 & _ & _ & _ & Hsel & Hstyle).
  now split.
Qed.

End Probe.

(** C7, as the code has it.  When [getWrappedLineBounds] returns, the
    editor's selection is the selection recorded at entry, the document, the
    tab size and the mover's column memory are as at entry, the counter is
    back at its entry value, and the cursor style is [Block], whatever it was
    at entry. *)
Theorem getWrappedLineBounds_effect cursorMove s startChar endChar s' :
  getWrappedLineBounds cursorMove s = (Normal (startChar, endChar), s') ->
  vscode.selection (editor s') = vscode.selection (editor s)
  /\ vscode.document (editor s') = vscode.document (editor s)
  /\ vscode.tabSize (vscode.options (editor s')) = vscode.tabSize (vscode.options (editor s))
  /\ vscode.cursorStyle (vscode.options (editor s')) = vscode.Block
  /\ desiredColumn (this s') = desiredColumn (this s)
  /\ isMoving (this s') = isMoving (this s)
  /\ (0 <= programmaticMoveCount (this s) ->
      programmaticMoveCount (this s') = programmaticMoveCount (this s)).
Proof.
  intros Hprobe.
  destruct (getWrappedLineBounds_restores cursorMove s _ s' Hprobe) as [Hsel Hstyle].
  pose proof (getWrappedLineBounds_quiet cursorMove s) as Hquiet.
  pose proof (getWrappedLineBounds_guarded cursorMove s) as Hguard.
  rewrite Hprobe in Hquiet, Hguard. simpl in Hquiet, Hguard.
  destruct Hquiet as (Hcol & Hmov & Hdoc & Htab & _).
  repeat split; try assumption.
  intros Hcount. now destruct (Hguard Hcount).
Qed.

Lemma getWrappedLineBounds_effect_witness :
  vscode.selection
    (editor (snd (getWrappedLineBounds (toyHost 4)
                    (sessionOn (editorAt [letters 10] 0 6 vscode.Block)))))
  = vscode.selection (editor (sessionOn (editorAt [letters 10] 0 6 vscode.Block)))
  /\ vscode.document
       (editor (snd (getWrappedLineBounds (toyHost 4)
                       (sessionOn (editorAt [letters 10] 0 6 vscode.Block)))))
     = vscode.document (editor (sessionOn (editorAt [letters 10] 0 6 vscode.Block)))
  /\ vscode.tabSize (vscode.options
       (editor (snd (getWrappedLineBounds (toyHost 4)
                       (sessionOn (editorAt [letters 10] 0 6 vscode.Block))))))
     = vscode.tabSize (vscode.options
         (editor (sessionOn (editorAt [letters 10] 0 6 vscode.Block))))
  /\ vscode.cursorStyle (vscode.options
       (editor (snd (getWrappedLineBounds (toyHost 4)
                       (sessionOn (editorAt [letters 10] 0 6 vscode.Block))))))
     = vscode.Block
  /\ desiredColumn
       (this (snd (getWrappedLineBounds (toyHost 4)
                     (sessionOn (editorAt [letters 10] 0 6 vscode.Block)))))
     = desiredColumn (this (sessionOn (editorAt [letters 10] 0 6 vscode.Block)))
  /\ isMoving
       (this (snd (getWrappedLineBounds (toyHost 4)
                     (sessionOn (editorAt [letters 10] 0 6 vscode.Block)))))
     = isMoving (this (sessionOn (editorAt [letters 10] 0 6 vscode.Block)))
  /\ (0 <= programmaticMoveCount
             (this (sessionOn (editorAt [letters 10] 0 6 vscode.Block))) ->
      programmaticMoveCount
        (this (snd (getWrappedLineBounds (toyHost 4)
                      (sessionOn (editorAt [letters 10] 0 6 vscode.Block)))))
      = programmaticMoveCount
          (this (sessionOn (editorAt [letters 10] 0 6 vscode.Block)))).
Proof.
  apply (getWrappedLineBounds_effect (toyHost 4)
           (sessionOn (editorAt [letters 10] 0 6 vscode.Block)) 4 8).
  vm_compute; reflexivity.
Defined.

(** C7 as stated fails: entered with a line cursor, the probe returns the
    bounds (4, 8) and leaves a block cursor. *)
Lemma getWrappedLineBounds_cursorStyle_counterexample :
  fst (getWrappedLineBounds (toyHost 4)
         (sessionOn (editorAt [letters 10] 0 6 vscode.Line))) = Normal (4, 8)
  /\ vscode.cursorStyle (vscode.options
       (editor (sessionOn (editorAt [letters 10] 0 6 vscode.Line)))) = vscode.Line
  /\ vscode.cursorStyle (vscode.options
       (editor (snd (getWrappedLineBounds (toyHost 4)
                       (sessionOn (editorAt [letters 10] 0 6 vscode.Line))))))
     = vscode.Block.
Proof. vm_compute. repeat split; reflexivity. Qed.

(** ** The move controller *)


Lemma anchorDesiredColumn_guarded lo text wrapStart :
  respects (guardedFrom lo) (anchorDesiredColumn text wrapStart).
Proof.
  intros s _. unfold anchorDesiredColumn, bind, gets. simpl.
  destruct (isMoving (this s)); simpl;
    (split; [reflexivity |]); exists []; (split; [now rewrite app_nil_r | constructor]).
Qed.

(** Outside a sequence the block starts one, anchored at the cursor. *)
Lemma anchorDesiredColumn_anchors text wrapStart s :
  isMoving (this s) = false ->
  exists s',
    anchorDesiredColumn text wrapStart s = (Normal tt, s')
    /\ isMoving (this s') = true
    /\ desiredColumn (this s')
       = getColumnFromCharacter text wrapStart
           (vscode.activeCharacter (editor s)) (vscode.tabSize (vscode.options (editor s)))
    /\ editor s' = editor s.
Proof.
  intros Hidle. unfold anchorDesiredColumn, bind, gets. simpl.
  rewrite Hidle. simpl. eexists. split; [reflexivity |]. repeat split.
Qed.

Section Controller.

Variable cursorMove : Host.

Lemma moveAndAdjust_quiet direction :
  respects (quiet anyCall) (moveAndAdjust cursorMove direction).
Proof.
  unfold moveAndAdjust. frame_steps.
  - apply doDefaultCursorMove_quiet. intros b. exact I.
  - eapply respects_weaken; [| apply adjustCursorToColumn_quiet].
    intros s s'. apply quiet_weaken. intros i _. exact I.
Qed.

Lemma moveAndAdjust_guarded direction :
  respects (guardedFrom 0) (moveAndAdjust cursorMove direction).
Proof.
  unfold moveAndAdjust. frame_steps.
  - apply doDefaultCursorMove_guarded.
  - apply adjustCursorToColumn_guarded.
Qed.

(** A call whose probe returns either stops at the document boundary,
    leaving what the probe left, or goes on from there. *)
Lemma moveCursorLineWrapped_on_probed direction s wrapStart wrapEnd s1 text :
  getWrappedLineBounds cursorMove s = (Normal (wrapStart, wrapEnd), s1) ->
  vscode.lineAt (editor s) (vscode.activeLine (editor s)) = Some text ->
  moveCursorLineWrapped_on cursorMove direction s =
  if atDocumentBoundary direction wrapStart wrapEnd text
       (vscode.activeLine (editor s)) (vscode.lineCount (editor s))
  then (Normal tt, s1)
  else (anchorDesiredColumn text wrapStart ;;; moveAndAdjust cursorMove direction) s1.
Proof.
  intros Hprobe Htext.
  destruct (getWrappedLineBounds_restores cursorMove s _ s1 Hprobe) as [Hsel _].
  pose proof (getWrappedLineBounds_quiet cursorMove s) as Hquiet.
  rewrite Hprobe in Hquiet. destruct Hquiet as (_ & _ & Hdoc & _).
  simpl in Hdoc.
  assert (Hline : vscode.activeLine (editor s1) = vscode.activeLine (editor s))
    by (unfold vscode.activeLine; now rewrite Hsel).
  assert (Hcount : vscode.lineCount (editor s1) = vscode.lineCount (editor s))
    by (unfold vscode.lineCount; now rewrite Hdoc).
  assert (Hat : vscode.lineAt (editor s1) (vscode.activeLine (editor s)) = Some text)
    by (unfold vscode.lineAt in *; now rewrite Hdoc).
  unfold moveCursorLineWrapped_on.
  unfold bind at 1. rewrite Hprobe.
  unfold bind at 1. unfold gets at 1. rewrite Hline.
  unfold bind at 1. unfold lineText. rewrite Hat.
  unfold bind at 1. unfold gets at 1. rewrite Hcount.
  destruct (atDocumentBoundary direction wrapStart wrapEnd text
              (vscode.activeLine (editor s)) (vscode.lineCount (editor s)));
    reflexivity.
Qed.

(** The steps between the probe and the anchoring block change nothing. *)
Ltac controller_steps :=
  apply respects_bind; [apply respects_gets | intros lineNum];
  apply respects_bind; [apply respects_lineText | intros text];
  apply respects_bind; [apply respects_gets | intros totalLines];
  match goal with
  | |- respects _ (if ?c then _ else _) => destruct c; [apply respects_ret |]
  end;
  apply respects_bind; [| intros _].


Lemma moveCursorLineWrapped_on_guarded direction :
  respects (guardedFrom 0) (moveCursorLineWrapped_on cursorMove direction).
Proof.
  unfold moveCursorLineWrapped_on.
  apply respects_bind; [apply getWrappedLineBounds_guarded |].
  intros [wrapStart wrapEnd]. controller_steps.
  - apply anchorDesiredColumn_guarded.
  - exact (moveAndAdjust_guarded direction).
Qed.

End Controller.

(** ** Commands and listeners on the active editor *)

Section Window.

Variable cursorMove : Host.

Lemma moveCursorLineWrapped_active direction w e :
  editor w = Some e -> isSingleSelection e = true ->
  moveCursorLineWrapped cursorMove direction w
  = onEditor w e (moveCursorLineWrapped_on cursorMove direction).
Proof.
  intros He Hsingle. unfold moveCursorLineWrapped. now rewrite He, Hsingle.
Qed.

Lemma onEditor_snd {A} (m : Async A) (w : World) (e : vscode.TextEditor) :
  snd (onEditor w e m) = with_editor Some (snd (m (with_editor (fun _ => e) w))).
Proof.
  unfold onEditor. now destruct (m (with_editor (fun _ => e) w)).
Qed.

Lemma onEditor_atRest {A} (m : Async A) (w : World) (e : vscode.TextEditor) :
  respects (guardedFrom 0) m -> atRest w -> atRest (snd (onEditor w e m)).
Proof.
  intros Hm [Hcount Hjournal]. rewrite onEditor_snd.
  destruct (Hm (with_editor (fun _ => e) w)) as (Hc & l & Hj & Hg);
    [simpl; lia |].
  split; simpl in *.
  - congruence.
  - rewrite Hj. apply Forall_app. now split.
Qed.

Lemma moveCursorLineWrapped_atRest direction w :
  atRest w -> atRest (snd (moveCursorLineWrapped cursorMove direction w)).
Proof.
  intros Hrest. unfold moveCursorLineWrapped.
  destruct (editor w) as [e |]; [| exact Hrest].
  destruct (isSingleSelection e); simpl; [| exact Hrest].
  apply onEditor_atRest; [| exact Hrest].
  apply moveCursorLineWrapped_on_guarded.
Qed.

Lemma snapUnlessLineEnd_guarded e : respects (guardedFrom 0) (snapUnlessLineEnd cursorMove e).
Proof.
  unfold snapUnlessLineEnd. frame_steps. apply snapCursorInsideWrappedLine_guarded.
Qed.


Lemma update_ignored snapCursor w :
  0 < programmaticMoveCount (this w) -> update cursorMove snapCursor w = (Normal tt, w).
Proof.
  intros Hcount. unfold update, isInProgrammaticMove.
  now replace (programmaticMoveCount (this w) >? 0) with true
    by (symmetry; apply Z.gtb_lt; lia).
Qed.

(** Outside a programmatic move, [update] clears the flag and then
    either stops or goes on to snap. *)
Lemma update_cases snapCursor w :
  programmaticMoveCount (this w) <= 0 ->
  update cursorMove snapCursor w = (Normal tt, with_this (set_isMoving false) w)
  \/ exists e,
       editor w = Some e
       /\ vscode.activeCharacter e <> 0
       /\ isInInsertMode e = false
       /\ snapCursor = true
       /\ update cursorMove snapCursor w
          = onEditor (with_this (set_isMoving false) w) e (snapUnlessLineEnd cursorMove e).
Proof.
  intros Hcount. unfold update, isInProgrammaticMove.
  replace (programmaticMoveCount (this w) >? 0) with false
    by (symmetry; rewrite Z.gtb_ltb; apply Z.ltb_ge; lia).
  simpl. destruct (editor w) as [e |] eqn:He; [| now left].
  destruct (vscode.activeCharacter e =? 0) eqn:Hzero; [now left |].
  destruct (isInInsertMode e) eqn:Hinsert; simpl; [now left |].
  destruct snapCursor; [| now left].
  right. exists e. apply Z.eqb_neq in Hzero.
  split; [reflexivity |]. split; [exact Hzero |]. split; [exact Hinsert |].
  split; reflexivity.
Qed.

Lemma update_atRest snapCursor w :
  atRest w -> atRest (snd (update cursorMove snapCursor w)).
Proof.
  intros [Hcount Hjournal].
  destruct (update_cases snapCursor w ltac:(lia)) as [-> | (e & _ & _ & _ & _ & ->)].
  - split; assumption.
  - apply onEditor_atRest; [apply snapUnlessLineEnd_guarded | split; assumption].
Qed.


Lemma listener_update ev w :
  exists snapCursor, listener cursorMove ev w = update cursorMove snapCursor w.
Proof. destruct ev; eexists; reflexivity. Qed.



Lemma reachable_atRest w : reachable cursorMove w -> atRest w.
Proof.
  induction 1 as [e | direction w _ IH | ev w _ IH | e w _ IH].
  - split; [reflexivity | constructor].
  - now apply moveCursorLineWrapped_atRest.
  - destruct (listener_update ev w) as [snapCursor ->]. now apply update_atRest.
  - exact IH.
Qed.

End Window.

(** ** Properties of the move controller *)

(** C4.  When the probe reports a span that ends at the line's length
    and the cursor is on the last line, [moveCursorLineWrapped("down")]
    completes without establishing a sequence (the flag and the desired
    column are untouched), without issuing a line move to the host, and with
    the selection it was entered with; likewise for "up" when the span starts
    at 0 on line 0. *)
Theorem boundary_move_is_noop cursorMove direction w e wrapStart wrapEnd s1 text :
  editor w = Some e ->
  getWrappedLineBounds cursorMove (with_editor (fun _ => e) w)
  = (Normal (wrapStart, wrapEnd), s1) ->
  vscode.lineAt e (vscode.activeLine e) = Some text ->
  (direction = Down /\ wrapEnd = strlen text
   /\ vscode.lineCount e - 1 <= vscode.activeLine e)
  \/ (direction = Up /\ wrapStart = 0 /\ vscode.activeLine e = 0) ->
  fst (moveCursorLineWrapped cursorMove direction w) = Normal tt
  /\ isMoving (this (snd (moveCursorLineWrapped cursorMove direction w)))
     = isMoving (this w)
  /\ desiredColumn (this (snd (moveCursorLineWrapped cursorMove direction w)))
     = desiredColumn (this w)
  /\ option_map vscode.selection
       (editor (snd (moveCursorLineWrapped cursorMove direction w)))
     = Some (vscode.selection e)
  /\ exists l,
       journal (snd (moveCursorLineWrapped cursorMove direction w)) = journal w ++ l
       /\ Forall (fun i => isLineMove i = false) l.
Proof.
  intros He Hprobe Htext Hboundary.
  unfold moveCursorLineWrapped. rewrite He.
  destruct (isSingleSelection e); simpl.
  2:{ rewrite He. repeat split. exists []. split; [now rewrite app_nil_r | constructor]. }
  assert (Hstop : atDocumentBoundary direction wrapStart wrapEnd text
                    (vscode.activeLine e) (vscode.lineCount e) = true).
  { destruct Hboundary as [(-> & -> & Hlast) | (-> & -> & Hfirst)]; simpl.
    - rewrite Z.eqb_refl. simpl. apply Z.geb_le. lia.
    - rewrite Hfirst. reflexivity. }
  unfold onEditor.
  rewrite (moveCursorLineWrapped_on_probed cursorMove direction _ _ _ _ _ Hprobe Htext).
  simpl. rewrite Hstop. simpl.
  destruct (getWrappedLineBounds_restores cursorMove _ _ _ Hprobe) as [Hsel _].
  pose proof (getWrappedLineBounds_quiet cursorMove (with_editor (fun _ => e) w)) as Hquiet.
  rewrite Hprobe in Hquiet. destruct Hquiet as (Hcol & Hmov & _ & _ & l & Hj & Hl).
  simpl in *. repeat split; try assumption.
  - now rewrite Hsel.
  - exists l. now split.
Qed.

Lemma boundary_move_is_noop_witness :
  (fst (moveCursorLineWrapped (toyHost 4) Down (worldAt exampleDocument 1 2)) = Normal tt
   /\ isMoving (this (snd (moveCursorLineWrapped (toyHost 4) Down (worldAt exampleDocument 1 2))))
      = isMoving (this (worldAt exampleDocument 1 2))
   /\ desiredColumn (this (snd (moveCursorLineWrapped (toyHost 4) Down (worldAt exampleDocument 1 2))))
      = desiredColumn (this (worldAt exampleDocument 1 2))
   /\ option_map vscode.selection
        (editor (snd (moveCursorLineWrapped (toyHost 4) Down (worldAt exampleDocument 1 2))))
      = Some (vscode.selection (editorAt exampleDocument 1 2 vscode.Block))
   /\ exists l,
        journal (snd (moveCursorLineWrapped (toyHost 4) Down (worldAt exampleDocument 1 2)))
        = journal (worldAt exampleDocument 1 2) ++ l
        /\ Forall (fun i => isLineMove i = false) l)
  /\
  (fst (moveCursorLineWrapped (toyHost 4) Up (worldAt exampleDocument 0 2)) = Normal tt
   /\ isMoving (this (snd (moveCursorLineWrapped (toyHost 4) Up (worldAt exampleDocument 0 2))))
      = isMoving (this (worldAt exampleDocument 0 2))
   /\ desiredColumn (this (snd (moveCursorLineWrapped (toyHost 4) Up (worldAt exampleDocument 0 2))))
      = desiredColumn (this (worldAt exampleDocument 0 2))
   /\ option_map vscode.selection
        (editor (snd (moveCursorLineWrapped (toyHost 4) Up (worldAt exampleDocument 0 2))))
      = Some (vscode.selection (editorAt exampleDocument 0 2 vscode.Block))
   /\ exists l,
        journal (snd (moveCursorLineWrapped (toyHost 4) Up (worldAt exampleDocument 0 2)))
        = journal (worldAt exampleDocument 0 2) ++ l
        /\ Forall (fun i => isLineMove i = false) l).
Proof.
  split.
  - apply (boundary_move_is_noop (toyHost 4) Down (worldAt exampleDocument 1 2)
             (editorAt exampleDocument 1 2 vscode.Block) 0 3
             (snd (getWrappedLineBounds (toyHost 4)
                     (sessionOn (editorAt exampleDocument 1 2 vscode.Block))))
             (letters 3)).
    + vm_compute; reflexivity.
    + vm_compute; reflexivity.
    + vm_compute; reflexivity.
    + left. repeat split; vm_compute; discriminate.
  - apply (boundary_move_is_noop (toyHost 4) Up (worldAt exampleDocument 0 2)
             (editorAt exampleDocument 0 2 vscode.Block) 0 4
             (snd (getWrappedLineBounds (toyHost 4)
                     (sessionOn (editorAt exampleDocument 0 2 vscode.Block))))
             (letters 10)).
    + vm_compute; reflexivity.
    + vm_compute; reflexivity.
    + vm_compute; reflexivity.
    + right. repeat split.
Defined.




(** ** Properties of the guard *)

Lemma guarded_restoresCounter {A} (m : Async A) :
  respects (guardedFrom 0) m -> restoresCounter m.
Proof. intros Hm s Hs. now destruct (Hm s Hs). Qed.

Lemma runProgrammaticMove_restoresCounter action :
  restoresCounter action -> restoresCounter (runProgrammaticMove action).
Proof.
  intros Haction s Hs. rewrite runProgrammaticMove_unfold.
  specialize (Haction (enterProgrammaticMove s)).
  destruct (action (enterProgrammaticMove s)) as [r s1]. simpl in *. lia.
Qed.

(** C8.  [runProgrammaticMove] runs its action with the counter raised,
    so with [isInProgrammaticMove()] true, and on either completion of the
    action, normal or thrown, leaves the counter at its entry value; this
    holds for any action that itself restores the counter, so guarded moves
    nest.  Every method of the mover restores the counter.  Hence between two
    turns of the extension the counter is 0, never negative, and every
    mutation the extension ever issued was issued while
    [isInProgrammaticMove()] was true. *)
Theorem programmatic_move_counter cursorMove :
  (forall action s r s',
     restoresCounter action ->
     0 <= programmaticMoveCount (this s) ->
     runProgrammaticMove action s = (r, s') ->
     programmaticMoveCount (this s') = programmaticMoveCount (this s)
     /\ isInProgrammaticMove (this (enterProgrammaticMove s)) = true
     /\ exists s1,
          action (enterProgrammaticMove s) = (r, s1)
          /\ s' = leaveProgrammaticMove s1)
  /\ (forall action,
        restoresCounter action -> restoresCounter (runProgrammaticMove action))
  /\ (forall to, restoresCounter (doDefaultCursorMove cursorMove to))
  /\ (forall selection, restoresCounter (updateSelection selection))
  /\ restoresCounter (getWrappedLineBounds cursorMove)
  /\ (forall column, restoresCounter (adjustCursorToColumn cursorMove column))
  /\ restoresCounter (snapCursorInsideWrappedLine cursorMove)
  /\ (forall direction, restoresCounter (moveCursorLineWrapped_on cursorMove direction))
  /\ (forall w,
        reachable cursorMove w ->
        programmaticMoveCount (this w) = 0
        /\ isInProgrammaticMove (this w) = false
        /\ Forall (fun i => guarded i = true) (journal w)).
Proof.
  repeat match goal with |- _ /\ _ => split end.
  - intros action s r s' Haction Hs Hrun.
    pose proof (runProgrammaticMove_restoresCounter action Haction s Hs) as Hcount.
    rewrite Hrun in Hcount. simpl in Hcount.
    rewrite runProgrammaticMove_unfold in Hrun.
    destruct (action (enterProgrammaticMove s)) as [r1 s1] eqn:Haction1.
    inversion Hrun; subst. repeat split.
    + exact Hcount.
    + unfold isInProgrammaticMove. simpl. apply Z.gtb_lt. lia.
    + now exists s1.
  - apply runProgrammaticMove_restoresCounter.
  - intros to. apply guarded_restoresCounter, doDefaultCursorMove_guarded.
  - intros selection. apply guarded_restoresCounter, updateSelection_guarded.
  - apply guarded_restoresCounter, getWrappedLineBounds_guarded.
  - intros column. apply guarded_restoresCounter, adjustCursorToColumn_guarded.
  - apply guarded_restoresCounter, snapCursorInsideWrappedLine_guarded.
  - intros direction. apply guarded_restoresCounter, moveCursorLineWrapped_on_guarded.
  - intros w Hreach. destruct (reachable_atRest cursorMove w Hreach) as [Hzero Hjournal].
    repeat split; [exact Hzero | | exact Hjournal].
    unfold isInProgrammaticMove. now rewrite Hzero.
Qed.

Lemma executeCursorMove_keepsCounter cursorMove to :
  restoresCounter (executeCursorMove cursorMove to).
Proof.
  intros s _. unfold executeCursorMove.
  now destruct (cursorMove to (editor (issue (ExecuteCursorMove to) s))) as [[p o] |].
Qed.

Lemma programmatic_move_counter_witness :
  (fst (runProgrammaticMove (executeCursorMove rejectingHost vscode.down)
          (sessionOn (editorAt exampleDocument 0 2 vscode.Block))) = Throw
   /\ programmaticMoveCount
        (this (snd (runProgrammaticMove (executeCursorMove rejectingHost vscode.down)
                      (sessionOn (editorAt exampleDocument 0 2 vscode.Block)))))
      = programmaticMoveCount (this (sessionOn (editorAt exampleDocument 0 2 vscode.Block)))
   /\ isInProgrammaticMove
        (this (enterProgrammaticMove
                 (sessionOn (editorAt exampleDocument 0 2 vscode.Block)))) = true)
  /\ restoresCounter
       (runProgrammaticMove
          (runProgrammaticMove (executeCursorMove (toyHost 4) vscode.wrappedLineEnd)))
  /\ (programmaticMoveCount
        (this (calls (toyHost 4) [Up; Up; Down] (worldAt exampleDocument 1 2))) = 0
      /\ isInProgrammaticMove
           (this (calls (toyHost 4) [Up; Up; Down] (worldAt exampleDocument 1 2))) = false
      /\ Forall (fun i => guarded i = true)
           (journal (calls (toyHost 4) [Up; Up; Down] (worldAt exampleDocument 1 2)))).
Proof.
  split; [| split].
  - split; [vm_compute; reflexivity |].
    destruct (proj1 (programmatic_move_counter rejectingHost)
                (executeCursorMove rejectingHost vscode.down)
                (sessionOn (editorAt exampleDocument 0 2 vscode.Block))
                Throw
                (snd (runProgrammaticMove (executeCursorMove rejectingHost vscode.down)
                        (sessionOn (editorAt exampleDocument 0 2 vscode.Block)))))
      as (Hcount & Hguard & _).
    + apply executeCursorMove_keepsCounter.
    + simpl. lia.
    + vm_compute; reflexivity.
    + split; assumption.
  - apply (proj1 (proj2 (programmatic_move_counter (toyHost 4)))).
    apply (proj1 (proj2 (programmatic_move_counter (toyHost 4)))).
    apply executeCursorMove_keepsCounter.
  - apply (proj2 (proj2 (proj2 (proj2 (proj2 (proj2 (proj2 (proj2
             (programmatic_move_counter (toyHost 4)))))))))).
    cbn [calls]. repeat apply reachable_command. apply reachable_activate.
Defined.

(** ** Properties of the passive listener *)

Lemma newPosition_valid line character :
  0 <= line -> 0 <= character ->
  vscode.newPosition line character
  = Some {| vscode.line := line; vscode.character := character |}.
Proof.
  intros Hl Hc. unfold vscode.newPosition.
  apply Z.ltb_ge in Hl, Hc. now rewrite Hl, Hc.
Qed.

Lemma lineAt_line e n text : vscode.lineAt e n = Some text -> 0 <= n.
Proof.
  unfold vscode.lineAt. destruct (n <? 0) eqn:Hn; [discriminate |].
  intros _. now apply Z.ltb_ge.
Qed.

Lemma isEmpty_cursorAt sel :
  vscode.isEmpty sel = true -> sel = vscode.cursorAt (vscode.active sel).
Proof.
  unfold vscode.isEmpty, vscode.start, vscode.end_, vscode.cursorAt.
  destruct sel as [a b]. simpl.
  destruct (vscode.isBefore a b); intros H; apply Position_isEqual_eq in H; now subst.
Qed.


Section Listener.

Variable cursorMove : Host.

(** Where [snapCursorInsideWrappedLine] leaves the selection, by what the
    host's move to the wrapped-line end does. *)
Lemma snapCursorInsideWrappedLine_selection s :
  vscode.selection (editor (snd (snapCursorInsideWrappedLine cursorMove s))) =
  match cursorMove vscode.wrappedLineEnd (editor s) with
  | None => vscode.selection (editor s)
  | Some (p, _) =>
      if vscode.isEqual (vscode.selection (editor s)) (vscode.cursorAt p) then
        match vscode.lineAt (editor s) (vscode.line p) with
        | Some text =>
            match vscode.newPosition (vscode.line p)
                    (getLeftColumnCharacter text (vscode.character p)) with
            | Some newPos => vscode.cursorAt newPos
            | None => vscode.cursorAt p
            end
        | None => vscode.cursorAt p
        end
      else vscode.selection (editor s)
  end.
Proof.
  unfold snapCursorInsideWrappedLine, doDefaultCursorMove, updateSelection,
    runProgrammaticMove, tryFinally, bind, modify, gets, ret, lineText,
    newPosition, executeCursorMove, assignSelection.
  simpl.
  destruct (cursorMove vscode.wrappedLineEnd (editor s)) as [[p o] |]; simpl;
    [| reflexivity].
  destruct (vscode.isEqual (vscode.selection (editor s)) (vscode.cursorAt p)) eqn:Hat;
    simpl.
  - unfold vscode.lineAt. simpl.
    destruct (if vscode.line p <? 0 then None
              else nth_error (vscode.document (editor s)) (Z.to_nat (vscode.line p)))
      as [text |]; simpl; [| reflexivity].
    destruct (vscode.newPosition (vscode.line p)
                (getLeftColumnCharacter text (vscode.character p)))
      as [newPos |]; simpl; [| reflexivity].
    destruct (vscode.isEqual (vscode.cursorAt p) (vscode.cursorAt newPos)) eqn:Hsame;
      simpl; [| reflexivity].
    apply isEqual_cursorAt in Hsame. now symmetry.
  - rewrite isEqual_sym, Hat. reflexivity.
Qed.


End Listener.



(** ** Where a move lands *)

Section Landing.

Variable cursorMove : Host.

Lemma updateSelection_cursorAt p s :
  fst (updateSelection (vscode.cursorAt p) s) = Normal tt
  /\ vscode.selection (editor (snd (updateSelection (vscode.cursorAt p) s)))
     = vscode.cursorAt p.
Proof.
  unfold updateSelection, runProgrammaticMove, tryFinally, bind, modify, assignSelection.
  simpl.
  destruct (vscode.isEqual (vscode.selection (editor s)) (vscode.cursorAt p)) eqn:E;
    simpl; split; try reflexivity.
  now apply isEqual_cursorAt_r.
Qed.

(** A call of [adjustCursorToColumn] that returns has put the cursor on
    the line it found it on, at the offset the codec gives for the span the
    probe reported. *)
Lemma adjustCursorToColumn_lands column s wrapStart wrapEnd s1 s' :
  getWrappedLineBounds cursorMove s = (Normal (wrapStart, wrapEnd), s1) ->
  adjustCursorToColumn cursorMove column s = (Normal tt, s') ->
  exists text,
    vscode.lineAt (editor s1) (vscode.activeLine (editor s1)) = Some text
    /\ vscode.selection (editor s')
       = vscode.cursorAt
           {| vscode.line := vscode.activeLine (editor s1);
              vscode.character :=
                getCharacterFromColumn text wrapStart wrapEnd column
                  (vscode.tabSize (vscode.options (editor s1))) |}.
Proof.
  intros Hprobe. unfold adjustCursorToColumn.
  unfold bind at 1. rewrite Hprobe.
  unfold bind at 1. unfold gets at 1.
  unfold bind at 1. unfold lineText.
  destruct (vscode.lineAt (editor s1) (vscode.activeLine (editor s1))) as [text |];
    [| discriminate].
  unfold bind at 1. unfold gets at 1.
  unfold bind at 1. unfold newPosition.
  destruct (vscode.newPosition _ _) as [newPos |] eqn:Hpos; [| discriminate].
  unfold vscode.newPosition in Hpos.
  destruct (_ || _); [discriminate |]. inversion Hpos; subst newPos; clear Hpos.
  intros Hrun. exists text. split; [reflexivity |].
  match type of Hrun with
  | updateSelection (vscode.cursorAt ?p) s1 = _ =>
      destruct (updateSelection_cursorAt p s1) as [_ Hsel]
  end.
  rewrite Hrun in Hsel. exact Hsel.
Qed.

End Landing.

(** C5.  For a span with [wrapStart <= wrapEnd], the offset
    [getCharacterFromColumn] answers is never before the span start and
    never at or past the span end, except that for an empty span it is the
    span start; and that is where [adjustCursorToColumn], when it returns,
    has put the cursor, for the span its probe reported. *)
Theorem getCharacterFromColumn_in_span line wrapStart wrapEnd column tabSize :
  wrapStart <= wrapEnd ->
  wrapStart <= getCharacterFromColumn line wrapStart wrapEnd column tabSize
            <= Z.max (wrapEnd - 1) wrapStart
  /\ (forall cursorMove s s1 s',
        getWrappedLineBounds cursorMove s = (Normal (wrapStart, wrapEnd), s1) ->
        adjustCursorToColumn cursorMove column s = (Normal tt, s') ->
        wrapStart <= vscode.activeCharacter (editor s') <= Z.max (wrapEnd - 1) wrapStart).
Proof.
  intros Hspan. split; [now apply getCharacterFromColumn_range |].
  intros cursorMove s s1 s' Hprobe Hrun.
  destruct (adjustCursorToColumn_lands cursorMove column s _ _ s1 s' Hprobe Hrun)
    as (text & _ & Hsel).
  unfold vscode.activeCharacter. rewrite Hsel. simpl.
  now apply getCharacterFromColumn_range.
Qed.

Lemma getCharacterFromColumn_in_span_witness :
  4 <= getCharacterFromColumn (letters 10) 4 8 100 (TabNumber 4) <= Z.max (8 - 1) 4
  /\ 4 <= vscode.activeCharacter
            (editor (snd (adjustCursorToColumn (toyHost 4) 100
                            (sessionOn (editorAt exampleDocument 0 6 vscode.Block)))))
       <= Z.max (8 - 1) 4.
Proof.
  destruct (getCharacterFromColumn_in_span (letters 10) 4 8 100 (TabNumber 4))
    as [Hpure Hmove]; [lia |].
  split; [exact Hpure |].
  apply (Hmove (toyHost 4) (sessionOn (editorAt exampleDocument 0 6 vscode.Block))
           (snd (getWrappedLineBounds (toyHost 4)
                   (sessionOn (editorAt exampleDocument 0 6 vscode.Block)))));
    vm_compute; reflexivity.
Defined.

(** ** Counting visible offsets *)

Lemma offsets_app i n m :
  offsets i (n + m) = offsets i n ++ offsets (i + Z.of_nat n) m.
Proof.
  revert i. induction n as [| n IH]; intros i.
  - simpl. now rewrite Z.add_0_r.
  - cbn [Nat.add offsets app]. rewrite IH. do 3 f_equal. lia.
Qed.

Lemma visibleWidth_nonneg line wrapStart character :
  0 <= visibleWidth line wrapStart character.
Proof. unfold visibleWidth. lia. Qed.

Lemma visibleWidth_empty line wrapStart character :
  character < wrapStart -> visibleWidth line wrapStart character = 0.
Proof.
  intros H. unfold visibleWidth.
  now replace (Z.to_nat (character + 1 - wrapStart)) with 0%nat by lia.
Qed.

(** Splitting off the first offset of the range. *)
Lemma visibleWidth_head line wrapStart character :
  wrapStart <= character ->
  visibleWidth line wrapStart character
  = (if isNonBase line wrapStart then 0 else 1)
    + visibleWidth line (wrapStart + 1) character.
Proof.
  intros H. unfold visibleWidth.
  replace (Z.to_nat (character + 1 - wrapStart))
    with (S (Z.to_nat (character + 1 - (wrapStart + 1)))) by lia.
  cbn [offsets filter].
  destruct (isNonBase line wrapStart); cbn [negb length]; lia.
Qed.

(** Splitting off the last offset of the range. *)
Lemma visibleWidth_last line wrapStart character :
  wrapStart <= character + 1 ->
  visibleWidth line wrapStart (character + 1)
  = visibleWidth line wrapStart character
    + (if isNonBase line (character + 1) then 0 else 1).
Proof.
  intros H. unfold visibleWidth.
  replace (Z.to_nat (character + 1 + 1 - wrapStart))
    with (Z.to_nat (character + 1 - wrapStart) + 1)%nat by lia.
  rewrite offsets_app, filter_app, length_app.
  replace (wrapStart + Z.of_nat (Z.to_nat (character + 1 - wrapStart)))
    with (character + 1) by lia.
  cbn [offsets filter].
  destruct (isNonBase line (character + 1)); cbn [negb length]; lia.
Qed.

Lemma visibleWidth_monotone line wrapStart character character' :
  character <= character' ->
  visibleWidth line wrapStart character <= visibleWidth line wrapStart character'.
Proof.
  intros H. unfold visibleWidth.
  replace (Z.to_nat (character' + 1 - wrapStart))
    with (Z.to_nat (character + 1 - wrapStart)
          + (Z.to_nat (character' + 1 - wrapStart)
             - Z.to_nat (character + 1 - wrapStart)))%nat by lia.
  rewrite offsets_app, filter_app, length_app. lia.
Qed.

(** A visible offset counts one more than everything before it. *)
Lemma visibleWidth_strict line wrapStart character r :
  wrapStart <= r -> character < r -> isNonBase line r = false ->
  visibleWidth line wrapStart character + 1 <= visibleWidth line wrapStart r.
Proof.
  intros Hstart Hlt Hbase.
  pose proof (visibleWidth_monotone line wrapStart character (r - 1) ltac:(lia)) as Hmono.
  pose proof (visibleWidth_last line wrapStart (r - 1) ltac:(lia)) as Hlast.
  replace (r - 1 + 1) with r in Hlast by lia.
  rewrite Hbase in Hlast. lia.
Qed.

(** Combining marks add nothing to the count. *)
Lemma visibleWidth_marks line wrapStart character :
  forall n character',
    Z.to_nat (character' - character) = n ->
    character <= character' -> wrapStart <= character + 1 ->
    (forall j, character < j <= character' -> isNonBase line j = true) ->
    visibleWidth line wrapStart character' = visibleWidth line wrapStart character.
Proof.
  induction n as [| n IH]; intros character' Hn Hle Hstart Hmarks.
  - now replace character' with character by lia.
  - pose proof (visibleWidth_last line wrapStart (character' - 1) ltac:(lia)) as Hlast.
    replace (character' - 1 + 1) with character' in Hlast by lia.
    rewrite (Hmarks character') in Hlast by lia.
    rewrite Hlast, (IH (character' - 1)); try lia.
    intros j Hj. apply Hmarks. lia.
Qed.



(** ** What the walk answers

    Either the walk reaches the column asked for, on the visible offset
    that completes it, or the span runs out first and the walk answers the
    span's last visible offset (the offset it was entered with when the span
    holds none). *)
Lemma characterLoop_walk line wrapEnd column :
  forall n count index last,
    Z.to_nat (wrapEnd - index) = n ->
    count < column ->
    let r := characterLoop line wrapEnd column count index last in
    (index <= r < wrapEnd /\ isNonBase line r = false
     /\ count + visibleWidth line index r = column)
    \/ (count + visibleWidth line index (wrapEnd - 1) < column
        /\ ((r = last /\ forall j, index <= j < wrapEnd -> isNonBase line j = true)
            \/ (index <= r < wrapEnd /\ isNonBase line r = false
                /\ forall j, r < j < wrapEnd -> isNonBase line j = true))).
Proof.
  induction n as [| n IH]; intros count index last Hn Hc r; subst r.
  - right. rewrite characterLoop_exhausted by lia.
    rewrite visibleWidth_empty by lia.
    split; [lia |]. left. split; [reflexivity | intros j Hj; lia].
  - rewrite characterLoop_step by lia.
    destruct (isNonBase line index) eqn:Hmark; cbn [negb].
    + destruct (IH count (index + 1) last ltac:(lia) Hc)
        as [(Hr & Hb & Hcol) | (Hshort & Hend)].
      * left. repeat split; try lia; [exact Hb |].
        rewrite visibleWidth_head, Hmark by lia. lia.
      * right. split.
        { rewrite visibleWidth_head, Hmark by lia. lia. }
        destruct Hend as [(Hr & Hmarks) | (Hr & Hb & Hmarks)].
        -- left. split; [exact Hr |]. intros j Hj.
           destruct (Z.eq_dec j index) as [-> | Hne]; [exact Hmark | apply Hmarks; lia].
        -- right. repeat split; try lia; assumption.
    + destruct (Z_lt_ge_dec (count + 1) column) as [Hmore | Hdone].
      * destruct (IH (count + 1) (index + 1) index ltac:(lia) Hmore)
          as [(Hr & Hb & Hcol) | (Hshort & Hend)].
        -- left. repeat split; try lia; [exact Hb |].
           rewrite visibleWidth_head, Hmark by lia. lia.
        -- right. split.
           { rewrite visibleWidth_head, Hmark by lia. lia. }
           right. destruct Hend as [(Hr & Hmarks) | (Hr & Hb & Hmarks)].
           ++ rewrite Hr. repeat split; try lia; [exact Hmark |].
              intros j Hj. apply Hmarks. lia.
           ++ repeat split; try lia; assumption.
      * left. rewrite characterLoop_reached by lia.
        repeat split; try lia; [exact Hmark |].
        rewrite visibleWidth_head, Hmark by lia.
        rewrite visibleWidth_empty by lia. lia.
Qed.

(** A larger column never takes the walk to a smaller offset. *)
Lemma characterLoop_monotone line wrapEnd column column' :
  column <= column' ->
  forall n count index last,
    Z.to_nat (wrapEnd - index) = n ->
    last <= index ->
    characterLoop line wrapEnd column count index last
    <= characterLoop line wrapEnd column' count index last.
Proof.
  intros Hle. induction n as [| n IH]; intros count index last Hn Hlast.
  - rewrite !characterLoop_exhausted by lia. lia.
  - destruct (Z_lt_ge_dec count column) as [Hc | Hc].
    + rewrite (characterLoop_step line wrapEnd column) by lia.
      rewrite (characterLoop_step line wrapEnd column') by lia.
      destruct (negb (isNonBase line index)); apply IH; lia.
    + rewrite (characterLoop_reached line wrapEnd column) by lia.
      destruct (characterLoop_cases line wrapEnd column' _ count index last eq_refl)
        as [-> | [Hr _]]; lia.
Qed.

(** The base character of the cluster [x] is in: the offset the round
    trip through the column of [x] answers. *)
Lemma round_trip_base line wrapStart wrapEnd tabSize x j :
  wrapStart <= x < wrapEnd ->
  wrapStart <= j <= x -> isNonBase line j = false ->
  let r := getCharacterFromColumn line wrapStart wrapEnd
             (getColumnFromCharacter line wrapStart x tabSize) tabSize in
  wrapStart <= r <= x
  /\ isNonBase line r = false
  /\ forall k, r < k <= x -> isNonBase line k = true.
Proof.
  intros Hx Hj Hbase r. subst r.
  rewrite getColumnFromCharacter_visibleWidth. unfold getCharacterFromColumn.
  assert (Hsome : 1 <= visibleWidth line wrapStart x).
  { pose proof (visibleWidth_strict line wrapStart (wrapStart - 1) j
                  ltac:(lia) ltac:(lia) Hbase).
    pose proof (visibleWidth_nonneg line wrapStart (wrapStart - 1)).
    pose proof (visibleWidth_monotone line wrapStart j x ltac:(lia)). lia. }
  destruct (characterLoop_walk line wrapEnd
              (visibleWidth line wrapStart x + indentationFix line wrapStart tabSize)
              _ (indentationFix line wrapStart tabSize) wrapStart wrapStart
              eq_refl ltac:(lia))
    as [(Hr & Hb & Hcol) | (Hshort & _)].
  - set (r := characterLoop _ _ _ _ _ _) in *.
    assert (Hrx : r <= x).
    { destruct (Z_le_gt_dec r x) as [| Hgt]; [assumption |].
      pose proof (visibleWidth_strict line wrapStart x r ltac:(lia) ltac:(lia) Hb). lia. }
    repeat split; try lia; [exact Hb |].
    intros k Hk. destruct (isNonBase line k) eqn:Hmark; [reflexivity |].
    pose proof (visibleWidth_strict line wrapStart r k ltac:(lia) ltac:(lia) Hmark).
    pose proof (visibleWidth_monotone line wrapStart k x ltac:(lia)). lia.
  - pose proof (visibleWidth_monotone line wrapStart x (wrapEnd - 1) ltac:(lia)). lia.
Qed.


(** ** More properties of the column codec *)

(** X1.  Along a line the visual column never decreases: an offset
    further right has a column at least as large, for the same span start
    and tab size. *)
Theorem getColumnFromCharacter_monotone line wrapStart character character' tabSize :
  character <= character' ->
  getColumnFromCharacter line wrapStart character tabSize
  <= getColumnFromCharacter line wrapStart character' tabSize.
Proof.
  intros Hle. rewrite !getColumnFromCharacter_visibleWidth.
  pose proof (visibleWidth_monotone line wrapStart character character' Hle). lia.
Qed.

Lemma getColumnFromCharacter_monotone_witness :
  getColumnFromCharacter [thai_ko_kai; thai_mai_ek; 97; 98] 0 1 (TabNumber 4)
  <= getColumnFromCharacter [thai_ko_kai; thai_mai_ek; 97; 98] 0 3 (TabNumber 4).
Proof.
  apply getColumnFromCharacter_monotone. lia.
Defined.








(** X6.  A larger column never gives a smaller offset: on the same span,
    [getCharacterFromColumn] is monotone in the column asked for. *)
Theorem getCharacterFromColumn_monotone line wrapStart wrapEnd column column' tabSize :
  column <= column' ->
  getCharacterFromColumn line wrapStart wrapEnd column tabSize
  <= getCharacterFromColumn line wrapStart wrapEnd column' tabSize.
Proof.
  intros Hle. unfold getCharacterFromColumn.
  apply (characterLoop_monotone line wrapEnd column column' Hle _ _ _ _ eq_refl). lia.
Qed.

Lemma getCharacterFromColumn_monotone_witness :
  getCharacterFromColumn [97; thai_ko_kai; thai_mai_ek; 98] 0 4 2 (TabNumber 4)
  <= getCharacterFromColumn [97; thai_ko_kai; thai_mai_ek; 98] 0 4 3 (TabNumber 4).
Proof.
  apply getCharacterFromColumn_monotone. lia.
Defined.

(** X7.  The offset the listener snaps to is the one the codec gives:
    for [character >= 1], [getLeftColumnCharacter] answers what the round
    trip of the previous offset answers on the unwrapped line up to
    [character], the base character of the cluster left of [character]. *)
Theorem getLeftColumnCharacter_round_trip line character tabSize :
  1 <= character ->
  getLeftColumnCharacter line character
  = getCharacterFromColumn line 0 character
      (getColumnFromCharacter line 0 (character - 1) tabSize) tabSize.
Proof.
  intros Hc.
  destruct (leftLoop_spec line _ (character - 1) eq_refl ltac:(lia))
    as (Hrange & Hmarks & Hland).
  fold (getLeftColumnCharacter line character) in *.
  set (l := getLeftColumnCharacter line character) in *.
  destruct (isNonBase line l) eqn:Hl.
  - (* every offset below [character] holds a mark *)
    assert (Hzero : l = 0).
    { destruct (Z.eq_dec l 0) as [| Hnz]; [assumption |].
      specialize (Hland ltac:(lia)). congruence. }
    assert (Hall : forall j, 0 <= j <= character - 1 -> isNonBase line j = true).
    { intros j Hj. destruct (Z.eq_dec j 0) as [-> | Hne];
        [now rewrite <- Hzero | apply Hmarks; lia]. }
    rewrite getColumnFromCharacter_visibleWidth.
    rewrite (visibleWidth_marks line 0 (0 - 1) _ (character - 1) eq_refl)
      by (try lia; intros j Hj; apply Hall; lia).
    rewrite visibleWidth_empty by lia.
    unfold getCharacterFromColumn, indentationFix. simpl.
    rewrite characterLoop_reached by lia. exact Hzero.
  - destruct (round_trip_base line 0 character tabSize (character - 1) l
                ltac:(lia) ltac:(lia) Hl) as (Hr & Hb & Hrmarks).
    set (r := getCharacterFromColumn _ _ _ _ _) in *.
    destruct (Z.lt_trichotomy l r) as [Hlt | [Heq | Hgt]]; [| exact Heq |].
    + rewrite Hmarks in Hb by lia. discriminate.
    + rewrite Hrmarks in Hl by lia. discriminate.
Qed.

Lemma getLeftColumnCharacter_round_trip_witness :
  getLeftColumnCharacter [97; thai_ko_kai; thai_mai_ek; thai_mai_ek] 4
  = getCharacterFromColumn [97; thai_ko_kai; thai_mai_ek; thai_mai_ek] 0 4
      (getColumnFromCharacter [97; thai_ko_kai; thai_mai_ek; thai_mai_ek] 0 (4 - 1)
         (TabNumber 4)) (TabNumber 4).
Proof.
  apply getLeftColumnCharacter_round_trip. lia.
Defined.

(** ** The two revisions of the column helpers *)













(** ** What a guarded step does *)

Lemma Position_isEqual_refl p : vscode.Position_isEqual p p = true.
Proof. unfold vscode.Position_isEqual. now rewrite !Z.eqb_refl. Qed.

Lemma isEqual_refl a : vscode.isEqual a a = true.
Proof. unfold vscode.isEqual. now rewrite !Position_isEqual_refl. Qed.

Lemma updateSelection_run selection s :
  updateSelection selection s =
  (Normal tt,
   leaveProgrammaticMove
     (if vscode.isEqual (vscode.selection (editor s)) selection
      then enterProgrammaticMove s
      else with_editor (vscode.set_selection selection)
             (issue (SetSelection selection) (enterProgrammaticMove s)))).
Proof.
  unfold updateSelection, runProgrammaticMove, tryFinally, bind, modify, assignSelection.
  simpl. now destruct (vscode.isEqual (vscode.selection (editor s)) selection).
Qed.

Lemma doDefaultCursorMove_run cursorMove to s :
  doDefaultCursorMove cursorMove to s =
  match cursorMove to (editor s) with
  | Some (primary, others) =>
      (Normal tt,
       leaveProgrammaticMove
         (with_editor (vscode.set_cursors primary others)
            (issue (ExecuteCursorMove to) (enterProgrammaticMove s))))
  | None =>
      (Throw, leaveProgrammaticMove (issue (ExecuteCursorMove to) (enterProgrammaticMove s)))
  end.
Proof.
  unfold doDefaultCursorMove, runProgrammaticMove, tryFinally, bind, modify,
    executeCursorMove.
  simpl. now destruct (cursorMove to (editor s)) as [[primary others] |].
Qed.

(** Leaving a guarded step that was entered from a state a guarded step
    left gives that state again. *)
Lemma leave_enter_leave s :
  leaveProgrammaticMove (enterProgrammaticMove (leaveProgrammaticMove s))
  = leaveProgrammaticMove s.
Proof.
  unfold leaveProgrammaticMove, enterProgrammaticMove, with_this,
    set_programmaticMoveCount.
  simpl. do 2 f_equal. lia.
Qed.

(** X9.  [updateSelection] never throws and leaves the editor with a
    selection equal, as a range, to the one asked for; run again with the
    same selection it changes nothing: no second assignment is issued, and
    the counter, the column memory, the editor and the journal are as the
    first run left them. *)
Theorem updateSelection_idempotent selection s :
  fst (updateSelection selection s) = Normal tt
  /\ vscode.isEqual
       (vscode.selection (editor (snd (updateSelection selection s)))) selection = true
  /\ updateSelection selection (snd (updateSelection selection s))
     = (Normal tt, snd (updateSelection selection s)).
Proof.
  rewrite (updateSelection_run selection s). cbn [fst snd].
  set (s1 := if vscode.isEqual (vscode.selection (editor s)) selection
             then enterProgrammaticMove s
             else with_editor (vscode.set_selection selection)
                    (issue (SetSelection selection) (enterProgrammaticMove s))).
  assert (Hsel : vscode.isEqual (vscode.selection (editor s1)) selection = true).
  { subst s1. destruct (vscode.isEqual (vscode.selection (editor s)) selection) eqn:E.
    - exact E.
    - apply isEqual_refl. }
  repeat split.
  - exact Hsel.
  - rewrite updateSelection_run.
    replace (vscode.isEqual
               (vscode.selection (editor (leaveProgrammaticMove s1))) selection)
      with true by (symmetry; exact Hsel).
    now rewrite leave_enter_leave.
Qed.

Section ProbeRuns.

Variable cursorMove : Host.

(** The probe, by what the host answers to its two moves. *)
Lemma getWrappedLineBounds_run s :
  match cursorMove vscode.wrappedLineStart
          (vscode.set_cursorStyle vscode.LineThin (editor s)) with
  | None =>
      fst (getWrappedLineBounds cursorMove s) = Throw
      /\ editor (snd (getWrappedLineBounds cursorMove s))
         = vscode.set_cursorStyle vscode.LineThin (editor s)
  | Some (p1, o1) =>
      match cursorMove vscode.wrappedLineEnd
              (vscode.set_cursors p1 o1
                 (vscode.set_cursorStyle vscode.LineThin (editor s))) with
      | None =>
          fst (getWrappedLineBounds cursorMove s) = Throw
          /\ editor (snd (getWrappedLineBounds cursorMove s))
             = vscode.set_cursors p1 o1
                 (vscode.set_cursorStyle vscode.LineThin (editor s))
      | Some (p2, o2) =>
          fst (getWrappedLineBounds cursorMove s)
          = Normal (vscode.character p1, vscode.character p2)
      end
  end.
Proof.
  unfold getWrappedLineBounds, doDefaultCursorMove, updateSelection,
    runProgrammaticMove, tryFinally, bind, modify, gets, ret,
    executeCursorMove, assignSelection.
  simpl.
  destruct (cursorMove vscode.wrappedLineStart _) as [[p1 o1] |]; simpl;
    [| now split].
  destruct (cursorMove vscode.wrappedLineEnd _) as [[p2 o2] |]; simpl;
    [| now split].
  now destruct (vscode.isEqual (vscode.cursorAt p2) (vscode.selection (editor s))).
Qed.

(** The first mutation of a probe is the move to the wrapped-line start,
    whatever happens next. *)
Lemma getWrappedLineBounds_issues s :
  exists g l,
    journal (snd (getWrappedLineBounds cursorMove s))
    = journal s ++ {| call := ExecuteCursorMove vscode.wrappedLineStart; guarded := g |} :: l.
Proof.
  unfold getWrappedLineBounds, doDefaultCursorMove, updateSelection,
    runProgrammaticMove, tryFinally, bind, modify, gets, ret,
    executeCursorMove, assignSelection.
  simpl.
  destruct (cursorMove vscode.wrappedLineStart _) as [[p1 o1] |]; simpl;
    [| eexists; exists []; reflexivity].
  destruct (cursorMove vscode.wrappedLineEnd _) as [[p2 o2] |]; simpl;
    [| rewrite <- app_assoc; eexists; eexists; reflexivity].
  destruct (vscode.isEqual (vscode.cursorAt p2) (vscode.selection (editor s)));
    simpl; rewrite <- ?app_assoc; eexists; eexists; reflexivity.
Qed.

End ProbeRuns.

(** X10.  When [getWrappedLineBounds] throws, the host rejected one of
    its two moves, and the probe's last two steps were skipped: the cursor
    style is left at [LineThin], and if the rejected move is the one to the
    wrapped-line end, the cursor is left at the wrapped-line start, not
    where the probe found it.  The document is untouched and the counter is
    back at its entry value. *)
Theorem getWrappedLineBounds_throws cursorMove s s' :
  getWrappedLineBounds cursorMove s = (Throw, s') ->
  vscode.cursorStyle (vscode.options (editor s')) = vscode.LineThin
  /\ vscode.document (editor s') = vscode.document (editor s)
  /\ (0 <= programmaticMoveCount (this s) ->
      programmaticMoveCount (this s') = programmaticMoveCount (this s))
  /\ ((cursorMove vscode.wrappedLineStart
         (vscode.set_cursorStyle vscode.LineThin (editor s)) = None
       /\ vscode.selection (editor s') = vscode.selection (editor s))
      \/ exists p1 o1,
           cursorMove vscode.wrappedLineStart
             (vscode.set_cursorStyle vscode.LineThin (editor s)) = Some (p1, o1)
           /\ cursorMove vscode.wrappedLineEnd
                (vscode.set_cursors p1 o1
                   (vscode.set_cursorStyle vscode.LineThin (editor s))) = None
           /\ vscode.selection (editor s') = vscode.cursorAt p1).
Proof.
  intros Hthrow.
  pose proof (getWrappedLineBounds_guarded cursorMove s) as Hguard.
  pose proof (getWrappedLineBounds_run cursorMove s) as Hrun.
  rewrite Hthrow in Hguard, Hrun. cbn [fst snd] in Hguard, Hrun.
  assert (Hcount : 0 <= programmaticMoveCount (this s) ->
                   programmaticMoveCount (this s') = programmaticMoveCount (this s))
    by (intros Hs; now destruct (Hguard Hs)).
  destruct (cursorMove vscode.wrappedLineStart _) as [[p1 o1] |] eqn:Hstart.
  - destruct (cursorMove vscode.wrappedLineEnd _) as [[p2 o2] |] eqn:Hend;
      [discriminate |].
    destruct Hrun as [_ Hed]. rewrite Hed. repeat split; try assumption.
    right. exists p1, o1. now repeat split.
  - destruct Hrun as [_ Hed]. rewrite Hed. repeat split; try assumption.
    now left.
Qed.

Lemma getWrappedLineBounds_throws_witness :
  vscode.cursorStyle
    (vscode.options
       (editor (snd (getWrappedLineBounds (haltingHost 4)
                       (sessionOn (editorAt [letters 10] 0 6 vscode.Block))))))
  = vscode.LineThin
  /\ vscode.document
       (editor (snd (getWrappedLineBounds (haltingHost 4)
                       (sessionOn (editorAt [letters 10] 0 6 vscode.Block)))))
     = vscode.document (editor (sessionOn (editorAt [letters 10] 0 6 vscode.Block)))
  /\ (0 <= programmaticMoveCount
             (this (sessionOn (editorAt [letters 10] 0 6 vscode.Block))) ->
      programmaticMoveCount
        (this (snd (getWrappedLineBounds (haltingHost 4)
                      (sessionOn (editorAt [letters 10] 0 6 vscode.Block)))))
      = programmaticMoveCount
          (this (sessionOn (editorAt [letters 10] 0 6 vscode.Block))))
  /\ ((haltingHost 4 vscode.wrappedLineStart
         (vscode.set_cursorStyle vscode.LineThin
            (editor (sessionOn (editorAt [letters 10] 0 6 vscode.Block)))) = None
       /\ vscode.selection
            (editor (snd (getWrappedLineBounds (haltingHost 4)
                            (sessionOn (editorAt [letters 10] 0 6 vscode.Block)))))
          = vscode.selection
              (editor (sessionOn (editorAt [letters 10] 0 6 vscode.Block))))
      \/ exists p1 o1,
           haltingHost 4 vscode.wrappedLineStart
             (vscode.set_cursorStyle vscode.LineThin
                (editor (sessionOn (editorAt [letters 10] 0 6 vscode.Block))))
           = Some (p1, o1)
           /\ haltingHost 4 vscode.wrappedLineEnd
                (vscode.set_cursors p1 o1
                   (vscode.set_cursorStyle vscode.LineThin
                      (editor (sessionOn (editorAt [letters 10] 0 6 vscode.Block)))))
              = None
           /\ vscode.selection
                (editor (snd (getWrappedLineBounds (haltingHost 4)
                                (sessionOn (editorAt [letters 10] 0 6 vscode.Block)))))
              = vscode.cursorAt p1).
Proof.
  apply (getWrappedLineBounds_throws (haltingHost 4)
           (sessionOn (editorAt [letters 10] 0 6 vscode.Block))).
  vm_compute; reflexivity.
Defined.

(** ** The column a move lands on *)



(** ** When the extension touches the host *)

#[local] Instance journalExtends_framing : Framing journalExtends.
Proof.
  split; unfold journalExtends.
  - intros s. exists []. now rewrite app_nil_r.
  - intros a b c [l1 H1] [l2 H2]. exists (l1 ++ l2). now rewrite H2, H1, app_assoc.
Qed.

Lemma quiet_journalExtends P s s' : quiet P s s' -> journalExtends s s'.
Proof. intros (_ & _ & _ & _ & l & Hj & _). now exists l. Qed.

Lemma anchorDesiredColumn_journalExtends text wrapStart :
  respects journalExtends (anchorDesiredColumn text wrapStart).
Proof.
  intros s. unfold anchorDesiredColumn, bind, gets. simpl.
  destruct (isMoving (this s)); simpl; exists []; now rewrite app_nil_r.
Qed.

(** A list is not itself with something appended. *)
Lemma journal_grown {A} (l : list A) (x : A) (l' : list A) : l ++ x :: l' <> l.
Proof.
  intros H. apply (f_equal (@length A)) in H.
  rewrite length_app in H. simpl in H. lia.
Qed.

Lemma isEmpty_cursor p : vscode.isEmpty (vscode.cursorAt p) = true.
Proof.
  unfold vscode.isEmpty, vscode.start, vscode.end_, vscode.cursorAt. simpl.
  destruct (vscode.isBefore p p); apply Position_isEqual_refl.
Qed.

(** One empty selection: one cursor with nothing selected. *)
Lemma isSingleSelection_cursor e :
  isSingleSelection e = true <-> exists p, vscode.selections e = [vscode.cursorAt p].
Proof.
  unfold isSingleSelection, vscode.selections. split.
  - intros H. apply andb_true_iff in H as [Hone Hempty].
    apply Nat.eqb_eq in Hone. simpl in Hone.
    destruct (vscode.secondary e); [| discriminate].
    exists (vscode.active (vscode.selection e)). f_equal.
    now apply isEmpty_cursorAt.
  - intros [p H]. inversion H as [[Hsel Hsec]].
    rewrite Hsel, Hsec. simpl. apply isEmpty_cursor.
Qed.

Section Touches.

Variable cursorMove : Host.

Lemma moveCursorLineWrapped_on_issues direction s :
  exists g l,
    journal (snd (moveCursorLineWrapped_on cursorMove direction s))
    = journal s
      ++ {| call := ExecuteCursorMove vscode.wrappedLineStart; guarded := g |} :: l.
Proof.
  destruct (getWrappedLineBounds_issues cursorMove s) as (g & l & Hprobe).
  assert (Hrest : forall bounds : Z * Z,
    respects journalExtends
      (let (wrapStart, wrapEnd) := bounds in
       lineNum <- gets (fun s => vscode.activeLine (editor s)) ;;
       text <- lineText lineNum ;;
       totalLines <- gets (fun s => vscode.lineCount (editor s)) ;;
       if atDocumentBoundary direction wrapStart wrapEnd text lineNum totalLines
       then ret tt
       else
         anchorDesiredColumn text wrapStart ;;;
         doDefaultCursorMove cursorMove (toCursorMove direction) ;;;
         column <- gets (fun s => desiredColumn (this s)) ;;
         adjustCursorToColumn cursorMove column)).
  { intros [wrapStart wrapEnd].
    apply respects_bind; [apply respects_gets | intros lineNum].
    apply respects_bind; [apply respects_lineText | intros text].
    apply respects_bind; [apply respects_gets | intros totalLines].
    destruct (atDocumentBoundary _ _ _ _ _ _); [apply respects_ret |].
    apply respects_bind; [apply anchorDesiredColumn_journalExtends | intros _].
    eapply respects_weaken; [| exact (moveAndAdjust_quiet cursorMove direction)].
    intros a b. apply quiet_journalExtends. }
  unfold moveCursorLineWrapped_on. unfold bind at 1.
  destruct (getWrappedLineBounds cursorMove s) as [[bounds |] s1]; cbn [snd] in Hprobe |- *.
  - destruct (Hrest bounds s1) as [l' Hl']. rewrite Hl', Hprobe, <- app_assoc.
    now exists g, (l ++ l').
  - now exists g, l.
Qed.

Lemma snapCursorInsideWrappedLine_issues s :
  exists g l,
    journal (snd (snapCursorInsideWrappedLine cursorMove s))
    = journal s
      ++ {| call := ExecuteCursorMove vscode.wrappedLineEnd; guarded := g |} :: l.
Proof.
  unfold snapCursorInsideWrappedLine, doDefaultCursorMove, updateSelection,
    runProgrammaticMove, tryFinally, bind, modify, gets, ret, lineText,
    newPosition, executeCursorMove, assignSelection.
  simpl.
  destruct (cursorMove vscode.wrappedLineEnd (editor s)) as [[p o] |]; simpl;
    [| eexists; exists []; reflexivity].
  destruct (vscode.isEqual (vscode.selection (editor s)) (vscode.cursorAt p)); simpl.
  - destruct (vscode.lineAt _ _) as [text |]; simpl;
      [| eexists; exists []; reflexivity].
    destruct (vscode.newPosition _ _) as [newPos |]; simpl;
      [| eexists; exists []; reflexivity].
    destruct (vscode.isEqual _ _); simpl; rewrite <- ?app_assoc;
      eexists; eexists; reflexivity.
  - destruct (vscode.isEqual _ _); simpl; rewrite <- ?app_assoc;
      eexists; eexists; reflexivity.
Qed.

End Touches.

(** X12.  [moveCursorLineWrapped] issues something to the host exactly
    when there is an active editor with one cursor and nothing selected,
    and then the first thing it issues is the probe's move to the
    wrapped-line start; in every other case the call changes nothing at
    all. *)
Theorem moveCursorLineWrapped_acts_iff cursorMove direction w :
  (journal (snd (moveCursorLineWrapped cursorMove direction w)) <> journal w
   <-> exists e p, editor w = Some e /\ vscode.selections e = [vscode.cursorAt p])
  /\ (journal (snd (moveCursorLineWrapped cursorMove direction w)) = journal w ->
      moveCursorLineWrapped cursorMove direction w = (Normal tt, w))
  /\ (journal (snd (moveCursorLineWrapped cursorMove direction w)) <> journal w ->
      exists g l,
        journal (snd (moveCursorLineWrapped cursorMove direction w))
        = journal w
          ++ {| call := ExecuteCursorMove vscode.wrappedLineStart; guarded := g |} :: l).
Proof.
  unfold moveCursorLineWrapped.
  destruct (editor w) as [e |] eqn:He.
  2:{ cbn [snd]. repeat split; try congruence.
      intros (e & p & Hsome & _). discriminate. }
  destruct (isSingleSelection e) eqn:Hsingle; cbn [negb snd].
  2:{ repeat split; try congruence.
      intros (e' & p & Hsome & Hsel). inversion Hsome; subst e'.
      assert (isSingleSelection e = true) by (apply isSingleSelection_cursor; eauto).
      congruence. }
  rewrite onEditor_snd. cbn [journal with_editor].
  destruct (moveCursorLineWrapped_on_issues cursorMove direction
              (with_editor (fun _ => e) w)) as (g & l & Hj).
  cbn [journal with_editor] in Hj.
  repeat split.
  - intros _. apply isSingleSelection_cursor in Hsingle as [p Hp]. now exists e, p.
  - intros _. rewrite Hj. apply journal_grown.
  - intros Hsame. rewrite Hj in Hsame. now apply journal_grown in Hsame.
  - intros _. now exists g, l.
Qed.

(** Whether [update] goes on to snap, and what it leaves when it does not. *)
Lemma update_acts cursorMove snapCursor w :
  (journal (snd (update cursorMove snapCursor w)) = journal w
   /\ editor (snd (update cursorMove snapCursor w)) = editor w
   /\ ~ (snapCursor = true
         /\ exists e text,
              programmaticMoveCount (this w) <= 0
              /\ editor w = Some e
              /\ vscode.activeCharacter e <> 0
              /\ isInInsertMode e = false
              /\ vscode.lineAt e (vscode.activeLine e) = Some text
              /\ vscode.activeCharacter e < strlen text))
  \/ ((snapCursor = true
       /\ exists e text,
            programmaticMoveCount (this w) <= 0
            /\ editor w = Some e
            /\ vscode.activeCharacter e <> 0
            /\ isInInsertMode e = false
            /\ vscode.lineAt e (vscode.activeLine e) = Some text
            /\ vscode.activeCharacter e < strlen text)
      /\ exists g l,
           journal (snd (update cursorMove snapCursor w))
           = journal w
             ++ {| call := ExecuteCursorMove vscode.wrappedLineEnd; guarded := g |} :: l).
Proof.
  unfold update, isInProgrammaticMove.
  destruct (programmaticMoveCount (this w) >? 0) eqn:Hcount.
  { left. split; [reflexivity | split; [cbn; congruence |]]. intros (_ & e & text & Hle & _).
    apply Z.gtb_lt in Hcount. lia. }
  rewrite Z.gtb_ltb in Hcount. apply Z.ltb_ge in Hcount.
  cbn [editor with_this].
  destruct (editor w) as [e |] eqn:He.
  2:{ left. split; [reflexivity | split; [cbn; congruence |]].
      intros (_ & e & text & _ & Hsome & _). discriminate. }
  destruct (vscode.activeCharacter e =? 0) eqn:Hchar.
  { left. split; [reflexivity | split; [exact He |]].
    intros (_ & e' & text & _ & Hsome & Hnz & _).
    inversion Hsome; subst e'. apply Z.eqb_eq in Hchar. contradiction. }
  apply Z.eqb_neq in Hchar.
  destruct (isInInsertMode e) eqn:Hinsert; cbn [negb andb].
  { left. split; [reflexivity | split; [exact He |]].
    intros (_ & e' & text & _ & Hsome & _ & Hmode & _).
    inversion Hsome; subst e'. congruence. }
  destruct snapCursor.
  2:{ left. split; [reflexivity | split; [exact He |]]. intros (Hfalse & _). discriminate. }
  rewrite onEditor_snd. unfold bind, lineText. cbn [editor with_editor].
  destruct (vscode.lineAt e (vscode.activeLine e)) as [text |] eqn:Htext.
  2:{ left. split; [reflexivity | split; [cbn; congruence |]].
      intros (_ & e' & text & _ & Hsome & _ & _ & Hat & _).
      inversion Hsome; subst e'. congruence. }
  destruct (strlen text <=? vscode.activeCharacter e) eqn:Hlen.
  { left. split; [reflexivity | split; [cbn; congruence |]].
    intros (_ & e' & text' & _ & Hsome & _ & _ & Hat & Hlt).
    inversion Hsome; subst e'. apply Z.leb_le in Hlen.
    assert (text' = text) by congruence. subst text'. lia. }
  apply Z.leb_gt in Hlen.
  right. split.
  - split; [reflexivity |]. exists e, text. repeat split; assumption.
  - destruct (snapCursorInsideWrappedLine_issues cursorMove
                (with_editor (fun _ => e) (with_this (set_isMoving false) w)))
      as (g & l & Hj).
    exists g, l. exact Hj.
Qed.

(** X13.  The listener issues something to the host exactly when it
    runs on a mouse selection change, outside a programmatic move, on an
    editor with one cursor and nothing selected, outside insertion mode,
    with the cursor neither at offset 0 nor at or past the end of its line;
    what it issues first is then the move to the wrapped-line end.  On every
    other event it leaves the editor and the journal alone. *)
Theorem listener_acts_iff cursorMove ev w :
  (journal (snd (listener cursorMove ev w)) <> journal w
   <-> exists e text,
         ev = vscode.DidChangeTextEditorSelection (Some vscode.Mouse)
         /\ programmaticMoveCount (this w) <= 0
         /\ editor w = Some e
         /\ isSingleSelection e = true
         /\ vscode.activeCharacter e <> 0
         /\ isInInsertMode e = false
         /\ vscode.lineAt e (vscode.activeLine e) = Some text
         /\ vscode.activeCharacter e < strlen text)
  /\ (journal (snd (listener cursorMove ev w)) = journal w ->
      editor (snd (listener cursorMove ev w)) = editor w)
  /\ (journal (snd (listener cursorMove ev w)) <> journal w ->
      exists g l,
        journal (snd (listener cursorMove ev w))
        = journal w
          ++ {| call := ExecuteCursorMove vscode.wrappedLineEnd; guarded := g |} :: l).
Proof.
  set (snapCursor :=
         match ev with
         | vscode.DidChangeTextEditorSelection (Some vscode.Mouse) =>
             match editor w with
             | Some e => isSingleSelection e
             | None => false
             end
         | _ => false
         end).
  assert (Hrun : listener cursorMove ev w = update cursorMove snapCursor w)
    by (subst snapCursor; destruct ev as [[[| |] |] | |]; reflexivity).
  assert (Hsnap : snapCursor = true
                  <-> exists e,
                        ev = vscode.DidChangeTextEditorSelection (Some vscode.Mouse)
                        /\ editor w = Some e /\ isSingleSelection e = true).
  { subst snapCursor. split.
    - destruct ev as [[[| |] |] | |]; try discriminate.
      destruct (editor w) as [e |]; [| discriminate].
      intros Hsingle. now exists e.
    - intros (e & -> & -> & Hsingle). exact Hsingle. }
  rewrite Hrun.
  destruct (update_acts cursorMove snapCursor w)
    as [(Hj & Hed & Hnot)
       | ((Hon & e & text & Hc & Hsome & Hnz & Hmode & Hat & Hlt) & g & l & Hj)].
  - split; [split |]; [| | split].
    + intros Hne. contradiction.
    + intros (e & text & Hev & Hc & Hsome & Hsingle & Hnz & Hmode & Hat & Hlt).
      exfalso. apply Hnot. split.
      * apply Hsnap. now exists e.
      * exists e, text. now repeat split.
    + intros _. exact Hed.
    + intros Hne. contradiction.
  - apply Hsnap in Hon as (e0 & Hev & Hsome0 & Hsingle).
    assert (e0 = e) by congruence. subst e0.
    split; [split |]; [| | split].
    + intros _. exists e, text. now repeat split.
    + intros _. rewrite Hj. apply journal_grown.
    + intros Hsame. rewrite Hj in Hsame. now apply journal_grown in Hsame.
    + intros _. now exists g, l.
Qed.

(** ** Calls that cannot throw *)

Lemma cursorInDocument_document e e' :
  vscode.selection e' = vscode.selection e ->
  vscode.document e' = vscode.document e ->
  cursorInDocument e -> cursorInDocument e'.
Proof.
  unfold cursorInDocument, vscode.activeCharacter, vscode.activeLine, vscode.lineAt.
  intros -> ->. trivial.
Qed.

(** A cursor put on the line of a cursor of the document, at an offset
    that is not negative, is in the document. *)
Lemma cursorInDocument_moved e e' character :
  vscode.document e' = vscode.document e ->
  vscode.selection e'
  = vscode.cursorAt {| vscode.line := vscode.activeLine e; vscode.character := character |} ->
  0 <= character ->
  cursorInDocument e -> cursorInDocument e'.
Proof.
  unfold cursorInDocument, vscode.activeCharacter, vscode.activeLine, vscode.lineAt.
  intros -> -> Hc [_ Hline]. simpl. now split.
Qed.

Lemma getCharacterFromColumn_from_start line wrapStart wrapEnd column tabSize :
  wrapStart <= getCharacterFromColumn line wrapStart wrapEnd column tabSize.
Proof.
  unfold getCharacterFromColumn.
  destruct (characterLoop_cases line wrapEnd column _
              (indentationFix line wrapStart tabSize) wrapStart wrapStart eq_refl)
    as [-> | [Hr _]]; lia.
Qed.

Lemma anchorDesiredColumn_returns text wrapStart s :
  exists s',
    anchorDesiredColumn text wrapStart s = (Normal tt, s') /\ editor s' = editor s.
Proof.
  unfold anchorDesiredColumn, bind, gets. simpl.
  destruct (isMoving (this s)); simpl; eexists; split; reflexivity.
Qed.

Section Returns.

Variable cursorMove : Host.
Hypothesis Haccepting : accepting cursorMove.

Lemma doDefaultCursorMove_returns to s :
  cursorInDocument (editor s) ->
  exists s',
    doDefaultCursorMove cursorMove to s = (Normal tt, s')
    /\ cursorInDocument (editor s')
    /\ vscode.document (editor s') = vscode.document (editor s).
Proof.
  intros Hin. rewrite doDefaultCursorMove_run.
  destruct (Haccepting to (editor s) Hin) as (p & o & -> & Hin').
  eexists. split; [reflexivity |]. split; [exact Hin' | reflexivity].
Qed.

Lemma getWrappedLineBounds_returns s :
  cursorInDocument (editor s) ->
  exists wrapStart wrapEnd s1,
    getWrappedLineBounds cursorMove s = (Normal (wrapStart, wrapEnd), s1)
    /\ 0 <= wrapStart
    /\ vscode.selection (editor s1) = vscode.selection (editor s)
    /\ vscode.document (editor s1) = vscode.document (editor s).
Proof.
  intros Hin.
  pose proof (getWrappedLineBounds_run cursorMove s) as Hrun.
  destruct (Haccepting vscode.wrappedLineStart
              (vscode.set_cursorStyle vscode.LineThin (editor s)) Hin)
    as (p1 & o1 & Hstart & Hin1).
  rewrite Hstart in Hrun.
  destruct (Haccepting vscode.wrappedLineEnd _ Hin1) as (p2 & o2 & Hend & _).
  rewrite Hend in Hrun.
  destruct (getWrappedLineBounds cursorMove s) as [r s1] eqn:Hprobe.
  cbn [fst] in Hrun. subst r.
  exists (vscode.character p1), (vscode.character p2), s1.
  destruct (getWrappedLineBounds_restores cursorMove s _ s1 Hprobe) as [Hsel _].
  pose proof (getWrappedLineBounds_quiet cursorMove s) as Hquiet.
  rewrite Hprobe in Hquiet. destruct Hquiet as (_ & _ & Hdoc & _).
  repeat split; try assumption.
  exact (proj1 Hin1).
Qed.

Lemma adjustCursorToColumn_returns column s :
  cursorInDocument (editor s) ->
  exists s',
    adjustCursorToColumn cursorMove column s = (Normal tt, s')
    /\ cursorInDocument (editor s')
    /\ vscode.document (editor s') = vscode.document (editor s).
Proof.
  intros Hin.
  destruct (getWrappedLineBounds_returns s Hin)
    as (wrapStart & wrapEnd & s1 & Hprobe & Hstart & Hsel & Hdoc).
  assert (Hin1 : cursorInDocument (editor s1))
    by (eapply cursorInDocument_document; eauto).
  destruct Hin1 as [Hchar [text Htext]].
  pose proof (lineAt_line _ _ _ Htext) as Hline.
  unfold adjustCursorToColumn.
  unfold bind at 1. rewrite Hprobe.
  unfold bind at 1. unfold gets at 1.
  unfold bind at 1. unfold lineText. rewrite Htext.
  unfold bind at 1. unfold gets at 1.
  unfold bind at 1. unfold newPosition.
  pose proof (getCharacterFromColumn_from_start text wrapStart wrapEnd column
                (vscode.tabSize (vscode.options (editor s1)))) as Hfrom.
  rewrite newPosition_valid by lia.
  match goal with
  | |- context [updateSelection (vscode.cursorAt ?p) s1] =>
      destruct (updateSelection_cursorAt p s1) as [Hnormal Hland];
      pose proof (updateSelection_quiet (vscode.cursorAt p) s1) as Hquiet;
      destruct (updateSelection (vscode.cursorAt p) s1) as [r s'] eqn:Hrun
  end.
  cbn [fst snd] in *. subst r.
  destruct Hquiet as (_ & _ & Hdoc' & _).
  exists s'. split; [reflexivity |]. split; [| congruence].
  eapply (cursorInDocument_moved (editor s1)); eauto; [lia |].
  split; [exact Hchar | now exists text].
Qed.

Lemma moveCursorLineWrapped_on_returns direction s :
  cursorInDocument (editor s) ->
  exists s',
    moveCursorLineWrapped_on cursorMove direction s = (Normal tt, s')
    /\ cursorInDocument (editor s')
    /\ vscode.document (editor s') = vscode.document (editor s).
Proof.
  intros Hin.
  destruct (getWrappedLineBounds_returns s Hin)
    as (wrapStart & wrapEnd & s1 & Hprobe & _ & Hsel & Hdoc).
  assert (Hin1 : cursorInDocument (editor s1))
    by (eapply cursorInDocument_document; eauto).
  destruct Hin as [Hchar [text Htext]].
  rewrite (moveCursorLineWrapped_on_probed cursorMove direction _ _ _ _ _ Hprobe Htext).
  destruct (atDocumentBoundary _ _ _ _ _ _).
  { exists s1. split; [reflexivity | split; [exact Hin1 | exact Hdoc]]. }
  destruct (anchorDesiredColumn_returns text wrapStart s1) as (s2 & Hanchor & Hed2).
  unfold bind at 1. rewrite Hanchor. unfold moveAndAdjust.
  destruct (doDefaultCursorMove_returns (toCursorMove direction) s2)
    as (s3 & Hmove & Hin3 & Hdoc3); [now rewrite Hed2 |].
  unfold bind at 1. rewrite Hmove.
  unfold bind at 1. unfold gets at 1.
  destruct (adjustCursorToColumn_returns (desiredColumn (this s3)) s3 Hin3)
    as (s' & Hadjust & Hin' & Hdoc').
  exists s'. split; [exact Hadjust |]. split; [exact Hin' | congruence].
Qed.

End Returns.

(** X14.  On a host that accepts every [cursorMove] command while the
    cursor is on a line of the document at an offset that is not negative,
    and leaves it on such a position, [moveCursorLineWrapped] never throws:
    it returns, with the cursor still on a line of the document at an offset
    that is not negative, and the document as it was. *)
Theorem moveCursorLineWrapped_returns cursorMove direction w e :
  accepting cursorMove ->
  editor w = Some e ->
  cursorInDocument e ->
  exists w' e',
    moveCursorLineWrapped cursorMove direction w = (Normal tt, w')
    /\ editor w' = Some e'
    /\ cursorInDocument e'
    /\ vscode.document e' = vscode.document e.
Proof.
  intros Haccepting He Hin. unfold moveCursorLineWrapped. rewrite He.
  destruct (isSingleSelection e); cbn [negb].
  2:{ exists w, e. split; [reflexivity | split; [exact He | split; [exact Hin | reflexivity]]]. }
  destruct (moveCursorLineWrapped_on_returns cursorMove Haccepting direction
              (with_editor (fun _ => e) w) Hin) as (s' & Hrun & Hin' & Hdoc).
  unfold onEditor. rewrite Hrun.
  exists (with_editor Some s'), (editor s').
  split; [reflexivity | split; [reflexivity | split; [exact Hin' | exact Hdoc]]].
Qed.

(** The example host accepts every command and keeps the cursor in the
    document. *)
Lemma toyHost_accepting width : 0 < width -> accepting (toyHost width).
Proof.
  intros Hwidth to e [Hchar [text Htext]].
  unfold toyHost, toyHostWith, toySegmentEnd, toySegmentStart.
  fold (vscode.activeLine e) (vscode.activeCharacter e). rewrite Htext.
  set (c := vscode.activeCharacter e) in *.
  set (l := vscode.activeLine e) in *.
  assert (Hlen : forall t : JsString, 0 <= strlen t) by (intros t; unfold strlen; lia).
  assert (Hseg : 0 <= c / width * width <= c).
  { pose proof (Z.mul_div_le c width Hwidth).
    pose proof (Z.div_pos c width Hchar Hwidth). nia. }
  assert (Hin : forall l' ch t,
             vscode.lineAt e l' = Some t -> 0 <= ch ->
             exists p o,
               Some ({| vscode.line := l'; vscode.character := ch |}, @nil vscode.Position)
               = Some (p, o)
               /\ cursorInDocument (vscode.set_cursors p o e)).
  { intros l' ch t Ht Hch. eexists. eexists. split; [reflexivity |].
    split; [exact Hch | now exists t]. }
  pose proof (Hlen text).
  destruct to.
  - (* up *)
    destruct (0 <? c / width * width) eqn:Hfirst.
    + apply Z.ltb_lt in Hfirst. apply (Hin l _ text Htext).
      assert (1 <= c / width) by nia.
      pose proof (Z.mul_div_le c width Hwidth). nia.
    + destruct (vscode.lineAt e (l - 1)) as [prev |] eqn:Hprev.
      * apply (Hin (l - 1) _ prev Hprev). pose proof (Hlen prev).
        assert (0 <= strlen prev / width * width).
        { pose proof (Z.div_pos (strlen prev) width ltac:(lia) Hwidth). nia. }
        lia.
      * now apply (Hin l _ text Htext).
  - (* down *)
    destruct (Z.min (strlen text) (c / width * width + width) <? strlen text).
    + apply (Hin l _ text Htext). lia.
    + destruct (vscode.lineAt e (l + 1)) as [next |] eqn:Hnext.
      * apply (Hin (l + 1) _ next Hnext). pose proof (Hlen next). lia.
      * now apply (Hin l _ text Htext).
  - apply (Hin l _ text Htext). lia.
  - apply (Hin l _ text Htext). lia.
  - apply (Hin l _ text Htext). lia.
  - apply (Hin l _ text Htext). lia.
Qed.

Lemma moveCursorLineWrapped_returns_witness :
  exists w' e',
    moveCursorLineWrapped (toyHost 4) Down (worldAt exampleDocument 0 6) = (Normal tt, w')
    /\ editor w' = Some e'
    /\ cursorInDocument e'
    /\ vscode.document e' = vscode.document (editorAt exampleDocument 0 6 vscode.Block).
Proof.
  apply (moveCursorLineWrapped_returns (toyHost 4) Down (worldAt exampleDocument 0 6)
           (editorAt exampleDocument 0 6 vscode.Block)).
  - apply toyHost_accepting. lia.
  - reflexivity.
  - split; [vm_compute; discriminate | eexists; vm_compute; reflexivity].
Defined.

Section SnapReturns.

Variable cursorMove : Host.

(** How [snapCursorInsideWrappedLine] completes, by what the host's move
    to the wrapped-line end does. *)
Lemma snapCursorInsideWrappedLine_completion s :
  fst (snapCursorInsideWrappedLine cursorMove s) =
  match cursorMove vscode.wrappedLineEnd (editor s) with
  | None => Throw
  | Some (p, _) =>
      if vscode.isEqual (vscode.selection (editor s)) (vscode.cursorAt p) then
        match vscode.lineAt (editor s) (vscode.line p) with
        | Some text =>
            match vscode.newPosition (vscode.line p)
                    (getLeftColumnCharacter text (vscode.character p)) with
            | Some newPos => Normal tt
            | None => Throw
            end
        | None => Throw
        end
      else Normal tt
  end.
Proof.
  unfold snapCursorInsideWrappedLine, doDefaultCursorMove, updateSelection,
    runProgrammaticMove, tryFinally, bind, modify, gets, ret, lineText,
    newPosition, executeCursorMove, assignSelection.
  simpl.
  destruct (cursorMove vscode.wrappedLineEnd (editor s)) as [[p o] |]; simpl;
    [| reflexivity].
  destruct (vscode.isEqual (vscode.selection (editor s)) (vscode.cursorAt p)); simpl.
  - unfold vscode.lineAt. simpl.
    destruct (if vscode.line p <? 0 then None
              else nth_error (vscode.document (editor s)) (Z.to_nat (vscode.line p)))
      as [text |]; simpl; [| reflexivity].
    destruct (vscode.newPosition (vscode.line p)
                (getLeftColumnCharacter text (vscode.character p)))
      as [newPos |]; simpl; [| reflexivity].
    now destruct (vscode.isEqual (vscode.cursorAt p) (vscode.cursorAt newPos)).
  - now destruct (vscode.isEqual _ _).
Qed.

Lemma snapCursorInsideWrappedLine_returns s :
  cursorInDocument (editor s) ->
  vscode.activeCharacter (editor s) <> 0 ->
  cursorMove vscode.wrappedLineEnd (editor s) <> None ->
  fst (snapCursorInsideWrappedLine cursorMove s) = Normal tt
  /\ cursorInDocument (editor (snd (snapCursorInsideWrappedLine cursorMove s)))
  /\ vscode.document (editor (snd (snapCursorInsideWrappedLine cursorMove s)))
     = vscode.document (editor s).
Proof.
  intros Hin Hnz Haccepts.
  pose proof (snapCursorInsideWrappedLine_completion s) as Hfst.
  pose proof (snapCursorInsideWrappedLine_selection cursorMove s) as Hsel.
  destruct (snapCursorInsideWrappedLine_quiet cursorMove s) as (_ & _ & Hdoc & _).
  destruct (cursorMove vscode.wrappedLineEnd (editor s)) as [[p o] |];
    [| contradiction].
  destruct (vscode.isEqual (vscode.selection (editor s)) (vscode.cursorAt p)) eqn:Hat.
  2:{ split; [exact Hfst |]. split; [| exact Hdoc].
      eapply cursorInDocument_document; eauto. }
  apply isEqual_cursorAt_r in Hat.
  assert (Hp : p = vscode.active (vscode.selection (editor s))) by now rewrite Hat.
  destruct Hin as [Hchar [text Htext]].
  pose proof (lineAt_line _ _ _ Htext) as Hline.
  unfold vscode.activeLine in Htext, Hline. rewrite <- Hp in Htext, Hline.
  unfold vscode.activeCharacter in Hchar, Hnz. rewrite <- Hp in Hchar, Hnz.
  rewrite Htext in Hfst, Hsel.
  destruct (getLeftColumnCharacter_spec text (vscode.character p) ltac:(lia))
    as (Hleft & _).
  rewrite newPosition_valid in Hfst, Hsel by lia.
  split; [exact Hfst |]. split; [| exact Hdoc].
  eapply (cursorInDocument_moved (editor s)); [exact Hdoc | | | ].
  - rewrite Hsel. unfold vscode.activeLine. now rewrite <- Hp.
  - lia.
  - split; [unfold vscode.activeCharacter; rewrite <- Hp; exact Hchar |].
    exists text. unfold vscode.activeLine. now rewrite <- Hp.
Qed.

End SnapReturns.

(** X15.  The listener never throws on an editor whose cursor is on a
    line of the document at an offset that is not negative, provided the
    host does not reject the move to the wrapped-line end there: whatever
    the event, it returns, with the cursor still on a line of the document
    at an offset that is not negative (the snap never computes the offset
    -1, which [getLeftColumnCharacter] answers at offset 0), and the
    document as it was. *)
Theorem listener_returns cursorMove ev w e :
  editor w = Some e ->
  cursorInDocument e ->
  cursorMove vscode.wrappedLineEnd e <> None ->
  exists w' e',
    listener cursorMove ev w = (Normal tt, w')
    /\ editor w' = Some e'
    /\ cursorInDocument e'
    /\ vscode.document e' = vscode.document e.
Proof.
  intros He Hin Haccepts.
  destruct (listener_update cursorMove ev w) as [snapCursor ->].
  destruct (Z_lt_ge_dec 0 (programmaticMoveCount (this w))) as [Hpos | Hzero].
  { rewrite update_ignored by exact Hpos.
    exists w, e. split; [reflexivity | split; [exact He | split; [exact Hin | reflexivity]]]. }
  destruct (update_cases cursorMove snapCursor w ltac:(lia))
    as [-> | (e0 & He0 & Hnz & _ & _ & ->)].
  { exists (with_this (set_isMoving false) w), e.
    split; [reflexivity | split; [exact He | split; [exact Hin | reflexivity]]]. }
  assert (e0 = e) by congruence. subst e0.
  unfold onEditor, snapUnlessLineEnd, bind, lineText. cbn [editor with_editor].
  destruct Hin as [Hchar [text Htext]]. rewrite Htext.
  destruct (strlen text <=? vscode.activeCharacter e).
  { eexists. exists e. split; [reflexivity |]. split; [reflexivity |].
    split; [split; [exact Hchar | now exists text] | reflexivity]. }
  destruct (snapCursorInsideWrappedLine_returns cursorMove
              (with_editor (fun _ => e) (with_this (set_isMoving false) w)))
    as (Hfst & Hin' & Hdoc); try assumption.
  { split; [exact Hchar | now exists text]. }
  destruct (snapCursorInsideWrappedLine cursorMove _) as [r s'].
  cbn [fst snd] in *. subst r.
  exists (with_editor Some s'), (editor s').
  split; [reflexivity | split; [reflexivity | split; [exact Hin' | exact Hdoc]]].
Qed.

Lemma listener_returns_witness :
  exists w' e',
    listener (toyHostWith true 4) (vscode.DidChangeTextEditorSelection (Some vscode.Mouse))
      (worldAt exampleDocument 0 4) = (Normal tt, w')
    /\ editor w' = Some e'
    /\ cursorInDocument e'
    /\ vscode.document e' = vscode.document (editorAt exampleDocument 0 4 vscode.Block).
Proof.
  apply (listener_returns (toyHostWith true 4)
           (vscode.DidChangeTextEditorSelection (Some vscode.Mouse))
           (worldAt exampleDocument 0 4) (editorAt exampleDocument 0 4 vscode.Block)).
  - reflexivity.
  - split; [vm_compute; discriminate | eexists; vm_compute; reflexivity].
  - vm_compute. discriminate.
Defined.

(** ** A move the host rejects *)

(** X16.  When the first call of a sequence gets past the guards and the
    host then rejects the move by a line, [moveCursorLineWrapped] throws
    after it has anchored: the flag is up and the desired column is the
    column of the cursor, although the cursor has not moved; the counter is
    back at its entry value. *)
Theorem rejected_move_stays_anchored
  cursorMove direction w e wrapStart wrapEnd s1 text :
  isMoving (this w) = false ->
  editor w = Some e ->
  isSingleSelection e = true ->
  getWrappedLineBounds cursorMove (with_editor (fun _ => e) w)
  = (Normal (wrapStart, wrapEnd), s1) ->
  vscode.lineAt e (vscode.activeLine e) = Some text ->
  atDocumentBoundary direction wrapStart wrapEnd text
    (vscode.activeLine e) (vscode.lineCount e) = false ->
  cursorMove (toCursorMove direction) (editor s1) = None ->
  fst (moveCursorLineWrapped cursorMove direction w) = Throw
  /\ isMoving (this (snd (moveCursorLineWrapped cursorMove direction w))) = true
  /\ desiredColumn (this (snd (moveCursorLineWrapped cursorMove direction w)))
     = getColumnFromCharacter text wrapStart
         (vscode.activeCharacter e) (vscode.tabSize (vscode.options e))
  /\ option_map vscode.selection
       (editor (snd (moveCursorLineWrapped cursorMove direction w)))
     = Some (vscode.selection e)
  /\ (0 <= programmaticMoveCount (this w) ->
      programmaticMoveCount (this (snd (moveCursorLineWrapped cursorMove direction w)))
      = programmaticMoveCount (this w)).
Proof.
  intros Hidle He Hsingle Hprobe Htext Hgo Hreject.
  pose proof (moveCursorLineWrapped_on_guarded cursorMove direction
                (with_editor (fun _ => e) w)) as Hguard.
  rewrite (moveCursorLineWrapped_active cursorMove direction w e He Hsingle).
  unfold onEditor.
  rewrite (moveCursorLineWrapped_on_probed cursorMove direction _ _ _ _ _ Hprobe Htext)
    in Hguard |- *.
  cbn [editor with_editor] in Hguard |- *. rewrite Hgo in Hguard |- *.
  destruct (getWrappedLineBounds_restores cursorMove _ _ _ Hprobe) as [Hsel _].
  pose proof (getWrappedLineBounds_quiet cursorMove (with_editor (fun _ => e) w))
    as Hquiet.
  rewrite Hprobe in Hquiet. destruct Hquiet as (_ & Hmov & _ & Htab & _).
  cbn [snd editor this with_editor] in Hsel, Hmov, Htab.
  destruct (anchorDesiredColumn_anchors text wrapStart s1 ltac:(congruence))
    as (s2 & Hanchor & Hup & Hcol & Hed).
  assert (Hrun : (anchorDesiredColumn text wrapStart ;;;
                  moveAndAdjust cursorMove direction) s1
                 = (Throw,
                    leaveProgrammaticMove
                      (issue (ExecuteCursorMove (toCursorMove direction))
                         (enterProgrammaticMove s2)))).
  { unfold bind at 1. rewrite Hanchor. unfold moveAndAdjust.
    unfold bind at 1. rewrite doDefaultCursorMove_run, Hed, Hreject. reflexivity. }
  rewrite Hrun in Hguard |- *. cbn in Hguard |- *.
  repeat split.
  - exact Hup.
  - rewrite Hcol. unfold vscode.activeCharacter. now rewrite Hsel, Htab.
  - now rewrite Hed, Hsel.
  - intros Hcount. now destruct (Hguard Hcount).
Qed.

Lemma rejected_move_stays_anchored_witness :
  fst (moveCursorLineWrapped (probeOnlyHost 4) Down (worldAt exampleDocument 0 6)) = Throw
  /\ isMoving
       (this (snd (moveCursorLineWrapped (probeOnlyHost 4) Down
                     (worldAt exampleDocument 0 6)))) = true
  /\ desiredColumn
       (this (snd (moveCursorLineWrapped (probeOnlyHost 4) Down
                     (worldAt exampleDocument 0 6))))
     = getColumnFromCharacter (letters 10) 4
         (vscode.activeCharacter (editorAt exampleDocument 0 6 vscode.Block))
         (vscode.tabSize (vscode.options (editorAt exampleDocument 0 6 vscode.Block)))
  /\ option_map vscode.selection
       (editor (snd (moveCursorLineWrapped (probeOnlyHost 4) Down
                       (worldAt exampleDocument 0 6))))
     = Some (vscode.selection (editorAt exampleDocument 0 6 vscode.Block))
  /\ (0 <= programmaticMoveCount (this (worldAt exampleDocument 0 6)) ->
      programmaticMoveCount
        (this (snd (moveCursorLineWrapped (probeOnlyHost 4) Down
                      (worldAt exampleDocument 0 6))))
      = programmaticMoveCount (this (worldAt exampleDocument 0 6))).
Proof.
  apply (rejected_move_stays_anchored (probeOnlyHost 4) Down
           (worldAt exampleDocument 0 6) (editorAt exampleDocument 0 6 vscode.Block) 4 8
           (snd (getWrappedLineBounds (probeOnlyHost 4)
                   (sessionOn (editorAt exampleDocument 0 6 vscode.Block))))
           (letters 10));
    vm_compute; reflexivity.
Defined.
